(** * Ax: [ax/modelbridge/dispatch_utils.py]

    A shallow embedding of the generation-strategy dispatch of Ax
    ([_make_sobol_step], [_make_botorch_step], [_suggest_gp_model],
    [choose_generation_strategy]) and the properties of it that the
    specification states.

    Python integers are [Z].  Python floats are IEEE binary64 numbers,
    taken from the standard library's [spec_float] with precision 53 and
    maximal exponent 1024.  A call that can raise or log runs in the
    effect monad [Eff]: it yields the events it emitted, in order, and
    either the exception raised or the value returned. *)

From Stdlib Require Import ZArith List String Bool Lia Permutation.
From Stdlib Require Import Floats.SpecFloat.
Import ListNotations.
Open Scope Z_scope.

(** ** Python numbers *)

Module Py.

(** [float]: binary64. *)
Definition float := spec_float.
Definition prec : Z := 53.
Definition emax : Z := 1024.

(** The exceptions a call of this module can end in.  [UserInputError] is
    the one of [ax.exceptions.core], raised by the constructor of
    [GenerationStrategy]; its message is not kept. *)
Inductive Exception :=
| ValueError (msg : string)
| OverflowError (msg : string)
| AssertionError
| UserInputError.

(** [n / 2] on an [int] [n]: true division, the quotient correctly rounded
    to the nearest binary64 (ties to even); [OverflowError] when that is
    not finite.  [binary_normalize prec emax m e] rounds [m * 2 ^ e]. *)
Definition int_truediv_2 (n : Z) : Exception + float :=
  match binary_normalize prec emax n (-1) false with
  | S754_infinity _ | S754_nan =>
      inl (OverflowError "integer division result too large for a float")
  | x => inr x
  end.

(** [math.ceil] on a float: the least [int] not below it. *)
Definition ceil (x : float) : Exception + Z :=
  match x with
  | S754_zero _ => inr 0
  | S754_finite s m e =>
      let v := if s then Z.neg m else Z.pos m in
      inr (match e with
           | Z.neg p => - ((- v) / Z.pow_pos 2 p)
           | _ => v * 2 ^ e
           end)
  | S754_infinity _ =>
      inl (OverflowError "cannot convert float infinity to integer")
  | S754_nan => inl (ValueError "cannot convert float NaN to integer")
  end.

(** The float literal [k/10] for a digit [k], as in [0.1] and [0.9]: the
    binary64 nearest to the decimal. *)
Definition tenths (k : Z) : float :=
  SFdiv prec emax (binary_normalize prec emax k 0 false)
    (binary_normalize prec emax 10 0 false).

(** The value of [ceil(n / 2)] on an [int] [n]. *)
Definition ceil_half (n : Z) : Exception + Z :=
  match int_truediv_2 n with
  | inl e => inl e
  | inr x => ceil x
  end.

(** Truth value of an [Optional[int]]: [None] and [0] are false. *)
Definition truthy (x : option Z) : bool :=
  match x with
  | None => false
  | Some v => negb (v =? 0)
  end.

(** [x == v] for an [Optional[int]] [x] and an [int] [v]. *)
Definition eq_int (x : option Z) (v : Z) : bool :=
  match x with
  | None => false
  | Some x => x =? v
  end.

End Py.

(** ** Data model *)

(** [ax.core.parameter.ParameterType] *)
Inductive ParameterType := BOOL | INT | FLOAT | STRING.

(** [TParamValue]: what a choice or fixed parameter ranges over. *)
Inductive TParamValue :=
| PNone
| PStr (s : string)
| PBool (b : bool)
| PFloat (f : Py.float)
| PInt (z : Z).

(** The parameters of a search space.  This module reads [values] of a
    [ChoiceParameter], and [parameter_type], [lower], [upper] of a
    [RangeParameter]; the bounds are read only when the type is [INT],
    where they are Python ints.  Any other parameter class (here
    [FixedParameter]) is skipped by both [isinstance] tests.  The class is
    [Parameter] in the source, a reserved word here. *)
Inductive AxParameter :=
| ChoiceParameter (values : list TParamValue)
| RangeParameter (parameter_type : ParameterType) (lower upper : Z)
| FixedParameter (value : TParamValue).

(** [SearchSpace.parameters]: a dict from names to parameters, iterated in
    insertion order. *)
Record SearchSpace := { parameters : list (string * AxParameter) }.

(** [OptimizationConfig]: only [is_moo_problem] is read. *)
Record OptimizationConfig := { is_moo_problem : bool }.

(** [Experiment]: attached to the strategy, never inspected. *)
Record Experiment := { experiment_name : string }.

(** [ax.modelbridge.registry.Models], the members used here. *)
Inductive Models := SOBOL | GPEI | MOO | FULLYBAYESIAN | FULLYBAYESIANMOO | BO_MIXED.

(** The transform list [[Winsorize] + Cont_X_trans + Y_trans] is kept by its
    three segments; [Cont_X_trans] and [Y_trans] are lists of the registry. *)
Inductive Transforms := Winsorize | Cont_X_trans | Y_trans.

(** [model_kwargs] of a step: the dict of the Sobol step, or the dict of a
    winsorizing BayesOpt step. *)
Inductive ModelKwargs :=
| SobolKwargs (deduplicate : bool) (seed : option Z)
| WinsorizeKwargs (transforms : list Transforms)
    (winsorization_lower winsorization_upper : option Py.float).

Record GenerationStep := {
  model : Models;
  num_trials : Z;
  min_trials_observed : Z;
  enforce_num_trials : bool;
  max_parallelism : option Z;
  model_kwargs : option ModelKwargs;
  should_deduplicate : bool
}.

Record GenerationStrategy := {
  steps : list GenerationStep;
  experiment : option Experiment
}.

(** ** Effects: log records, constructions, exceptions *)

(** A log message: a fixed text, or the f-string of line 309, which prints
    the strategy and the number of initialization trials. *)
Inductive LogMessage :=
| Text (text : string)
| UsingBayesianOptimization (gs : GenerationStrategy) (num_initialization_trials : Z).

Inductive Event :=
| LogInfo (msg : LogMessage)
| LogWarn (msg : LogMessage)
| NewStep (step : GenerationStep)
| NewStrategy (strategy : GenerationStrategy).

Definition Eff (A : Type) : Type := list Event * (Py.Exception + A).

Definition ret {A} (a : A) : Eff A := ([], inr a).

Definition bind {A B} (m : Eff A) (k : A -> Eff B) : Eff B :=
  match m with
  | (t, inl e) => (t, inl e)
  | (t, inr a) => let (t', r) := k a in (t ++ t', r)
  end.

Definition raise {A} (e : Py.Exception) : Eff A := ([], inl e).
Definition emit (ev : Event) : Eff unit := ([ev], inr tt).
Definition lift {A} (r : Py.Exception + A) : Eff A := ([], r).
Definition when (b : bool) (m : Eff unit) : Eff unit := if b then m else ret tt.

Definition trace {A} (m : Eff A) : list Event := fst m.
Definition outcome {A} (m : Eff A) : Py.Exception + A := snd m.

Declare Scope eff_scope.
Delimit Scope eff_scope with eff.
Notation "x <- m ;; k" := (bind m (fun x => k))
  (at level 100, m at next level, right associativity) : eff_scope.
Notation "m ;;; k" := (bind m (fun _ => k))
  (at level 100, right associativity) : eff_scope.
Open Scope eff_scope.

(** ** The module *)

Definition DEFAULT_BAYESIAN_PARALLELISM : Z := 3.
Definition MAX_DISCRETE_COMBINATIONS : Z := 65.
Definition SAASBO_INCOMPATIBLE_MESSAGE (strategy : string) : LogMessage :=
  Text ("SAASBO is incompatible with " ++ strategy ++ " generation strategy. "
        ++ "Disregarding user input `use_saasbo = True`.").

(** The constructor calls [GenerationStep(...)] and [GenerationStrategy(steps=...)]:
    the first builds the step as it is, the second validates the steps and
    builds the strategy from them. *)
Definition new_GenerationStep (step : GenerationStep) : Eff GenerationStep :=
  emit (NewStep step) ;;; ret step.

(** The validation in the constructor of [GenerationStrategy], a class of
    [ax.modelbridge.generation_strategy] and not of this module: the steps are
    checked in their order; [num_trials = -1] is accepted in the last step
    only, and any other [num_trials] must be at least 1. *)
Fixpoint validate_steps (steps : list GenerationStep) : Eff unit :=
  match steps with
  | [] => ret tt
  | step :: rest =>
      if num_trials step =? -1 then
        match rest with
        | [] => ret tt
        | _ :: _ => raise Py.UserInputError
        end
      else if num_trials step <? 1 then raise Py.UserInputError
      else validate_steps rest
  end.

Definition new_GenerationStrategy (steps : list GenerationStep) : Eff GenerationStrategy :=
  validate_steps steps ;;;
  let gs := {| steps := steps; experiment := None |} in
  emit (NewStrategy gs) ;;; ret gs.

(** [min_trials_observed or ceil(num_trials / 2)] (lines 46 and 88): the right
    operand is evaluated only when the left one is [None] or [0]. *)
Definition or_ceil_half (min_trials_observed : option Z) (num_trials : Z) : Eff Z :=
  match min_trials_observed with
  | Some v => if Py.truthy (Some v) then ret v
              else (x <- lift (Py.int_truediv_2 num_trials) ;; lift (Py.ceil x))
  | None => x <- lift (Py.int_truediv_2 num_trials) ;; lift (Py.ceil x)
  end.

Definition _make_sobol_step
    (num_trials : Z) (min_trials_observed : option Z) (enforce_num_trials : bool)
    (max_parallelism : option Z) (seed : option Z) (should_deduplicate : bool)
    : Eff GenerationStep :=
  min_trials_observed <- or_ceil_half min_trials_observed num_trials ;;
  new_GenerationStep
    {| model := SOBOL;
       num_trials := num_trials;
       min_trials_observed := min_trials_observed;
       enforce_num_trials := enforce_num_trials;
       max_parallelism := max_parallelism;
       model_kwargs := Some (SobolKwargs true seed);
       should_deduplicate := should_deduplicate |}.

Definition winsorization_error : Py.Exception :=
  Py.ValueError ("To apply winsorization, specify `winsorize=True` and provide the "
                 ++ "winsorization limits.").

Definition is_None {A} (x : option A) : bool :=
  match x with None => true | Some _ => false end.

Definition _make_botorch_step
    (num_trials : Z) (min_trials_observed : option Z) (enforce_num_trials : bool)
    (max_parallelism : option Z) (model : Models) (winsorize : bool)
    (winsorization_limits : option (option Py.float * option Py.float))
    (should_deduplicate : bool) : Eff GenerationStep :=
  (if (winsorize && is_None winsorization_limits)
      || (negb (is_None winsorization_limits) && negb winsorize)
   then raise winsorization_error else ret tt) ;;;
  model_kwargs <-
    (if winsorize then
       match winsorization_limits with
       | None => raise Py.AssertionError
       | Some limits =>
           ret (Some (WinsorizeKwargs [Winsorize; Cont_X_trans; Y_trans]
                        (fst limits) (snd limits)))
       end
     else ret None) ;;
  min_trials_observed <- or_ceil_half min_trials_observed num_trials ;;
  new_GenerationStep
    {| model := model;
       num_trials := num_trials;
       min_trials_observed := min_trials_observed;
       enforce_num_trials := enforce_num_trials;
       max_parallelism := max_parallelism;
       model_kwargs := model_kwargs;
       should_deduplicate := should_deduplicate |}.

(** The local variables of the loop of [_suggest_gp_model] (lines 116-129). *)
Record Counts := {
  num_continuous_parameters : Z;
  num_discrete_choices : Z;
  num_discrete_combinations : Z;
  num_possible_points : Z;
  all_range_parameters_are_int : bool
}.

Definition counts_init : Counts :=
  {| num_continuous_parameters := 0; num_discrete_choices := 0;
     num_discrete_combinations := 1; num_possible_points := 1;
     all_range_parameters_are_int := true |}.

Definition len {A} (l : list A) : Z := Z.of_nat (List.length l).

Definition ParameterType_eqb (a b : ParameterType) : bool :=
  match a, b with
  | BOOL, BOOL | INT, INT | FLOAT, FLOAT | STRING, STRING => true
  | _, _ => false
  end.

(** One iteration of the loop, on [parameter].  The bounds of an [INT] range
    are ints, on which [int(...)] is the identity. *)
Definition count_parameter (c : Counts) (parameter : AxParameter) : Counts :=
  match parameter with
  | ChoiceParameter values =>
      {| num_continuous_parameters := num_continuous_parameters c;
         num_discrete_choices := num_discrete_choices c + len values;
         num_discrete_combinations := num_discrete_combinations c * len values;
         num_possible_points := num_possible_points c * len values;
         all_range_parameters_are_int := all_range_parameters_are_int c |}
  | RangeParameter parameter_type lower upper =>
      if negb (ParameterType_eqb parameter_type INT) then
        {| num_continuous_parameters := num_continuous_parameters c + 1;
           num_discrete_choices := num_discrete_choices c;
           num_discrete_combinations := num_discrete_combinations c;
           num_possible_points := num_possible_points c;
           all_range_parameters_are_int := false |}
      else
        {| num_continuous_parameters := num_continuous_parameters c + 1;
           num_discrete_choices := num_discrete_choices c;
           num_discrete_combinations := num_discrete_combinations c;
           num_possible_points := num_possible_points c * (upper - lower);
           all_range_parameters_are_int := all_range_parameters_are_int c |}
  | FixedParameter _ => c
  end.

(** [for parameter in search_space.parameters.values(): ...] *)
Definition count_parameters (search_space : SearchSpace) : Counts :=
  fold_left count_parameter (map snd (parameters search_space)) counts_init.

(** [optimization_config and optimization_config.is_moo_problem], as a truth
    value. *)
Definition moo_problem (optimization_config : option OptimizationConfig) : bool :=
  match optimization_config with
  | None => false
  | Some c => is_moo_problem c
  end.

Definition _suggest_gp_model
    (search_space : SearchSpace) (num_trials : option Z)
    (optimization_config : option OptimizationConfig) (use_saasbo : bool)
    : Eff (option Models) :=
  let c := count_parameters search_space in
  if match num_trials with
     | None => false
     | Some num_trials =>
         all_range_parameters_are_int c && (num_possible_points c <=? num_trials)
     end
  then
    emit (LogInfo (Text "Using Sobol since we can enumerate the search space.")) ;;;
    when use_saasbo (emit (LogWarn (SAASBO_INCOMPATIBLE_MESSAGE "Sobol"))) ;;;
    ret None
  else
    let is_moo_problem := moo_problem optimization_config in
    if num_continuous_parameters c >? num_discrete_choices c then
      emit (LogInfo (Text
        ("Using Bayesian optimization since there are more continuous "
         ++ "parameters than there are categories for the unordered categorical "
         ++ "parameters."))) ;;;
      if is_moo_problem && use_saasbo then ret (Some FULLYBAYESIANMOO)
      else if is_moo_problem && negb use_saasbo then ret (Some MOO)
      else if use_saasbo then ret (Some FULLYBAYESIAN)
      else ret (Some GPEI)
    else if negb is_moo_problem
            && (num_discrete_combinations c <=? MAX_DISCRETE_COMBINATIONS) then
      emit (LogInfo (Text
        ("Using Bayesian optimization with a categorical kernel for improved "
         ++ "performance with a large number of unordered categorical parameters."))) ;;;
      when use_saasbo (emit (LogWarn (SAASBO_INCOMPATIBLE_MESSAGE "`BO_MIXED`"))) ;;;
      ret (Some BO_MIXED)
    else
      emit (LogInfo (Text
        ("Using Sobol since there are more than 65 "
         ++ "combinations for the categorical parameters. Consider removing a few "
         ++ "categorical parameters for improved performance. If possible, turn "
         ++ "all ordered categorical variables into RangeParameters"))) ;;;
      when use_saasbo (emit (LogWarn (SAASBO_INCOMPATIBLE_MESSAGE "Sobol"))) ;;;
      ret None.

(** The keyword arguments of [choose_generation_strategy]. *)
Module Arg.
Record t := {
  search_space : SearchSpace;
  use_batch_trials : bool;
  enforce_sequential_optimization : bool;
  random_seed : option Z;
  winsorize_botorch_model : bool;
  winsorization_limits : option (option Py.float * option Py.float);
  no_bayesian_optimization : bool;
  num_trials : option Z;
  num_initialization_trials : option Z;
  max_parallelism_cap : option Z;
  max_parallelism_override : option Z;
  optimization_config : option OptimizationConfig;
  should_deduplicate : bool;
  use_saasbo : bool;
  experiment : option Experiment
}.

(** The defaults of the signature (lines 178-192). *)
Definition defaults (search_space : SearchSpace) : t :=
  {| search_space := search_space;
     use_batch_trials := false;
     enforce_sequential_optimization := true;
     random_seed := None;
     winsorize_botorch_model := false;
     winsorization_limits := None;
     no_bayesian_optimization := false;
     num_trials := None;
     num_initialization_trials := None;
     max_parallelism_cap := None;
     max_parallelism_override := None;
     optimization_config := None;
     should_deduplicate := false;
     use_saasbo := false;
     experiment := None |}.

(** Keyword arguments passed on top of others. *)
Definition with_parallelism (override cap : option Z) (a : t) : t :=
  {| search_space := search_space a;
     use_batch_trials := use_batch_trials a;
     enforce_sequential_optimization := enforce_sequential_optimization a;
     random_seed := random_seed a;
     winsorize_botorch_model := winsorize_botorch_model a;
     winsorization_limits := winsorization_limits a;
     no_bayesian_optimization := no_bayesian_optimization a;
     num_trials := num_trials a;
     num_initialization_trials := num_initialization_trials a;
     max_parallelism_cap := cap;
     max_parallelism_override := override;
     optimization_config := optimization_config a;
     should_deduplicate := should_deduplicate a;
     use_saasbo := use_saasbo a;
     experiment := experiment a |}.

Definition with_winsorization
    (winsorize : bool) (limits : option (option Py.float * option Py.float))
    (a : t) : t :=
  {| search_space := search_space a;
     use_batch_trials := use_batch_trials a;
     enforce_sequential_optimization := enforce_sequential_optimization a;
     random_seed := random_seed a;
     winsorize_botorch_model := winsorize;
     winsorization_limits := limits;
     no_bayesian_optimization := no_bayesian_optimization a;
     num_trials := num_trials a;
     num_initialization_trials := num_initialization_trials a;
     max_parallelism_cap := max_parallelism_cap a;
     max_parallelism_override := max_parallelism_override a;
     optimization_config := optimization_config a;
     should_deduplicate := should_deduplicate a;
     use_saasbo := use_saasbo a;
     experiment := experiment a |}.

Definition with_trials
    (no_bo : bool) (trials initialization_trials : option Z) (a : t) : t :=
  {| search_space := search_space a;
     use_batch_trials := use_batch_trials a;
     enforce_sequential_optimization := enforce_sequential_optimization a;
     random_seed := random_seed a;
     winsorize_botorch_model := winsorize_botorch_model a;
     winsorization_limits := winsorization_limits a;
     no_bayesian_optimization := no_bo;
     num_trials := trials;
     num_initialization_trials := initialization_trials;
     max_parallelism_cap := max_parallelism_cap a;
     max_parallelism_override := max_parallelism_override a;
     optimization_config := optimization_config a;
     should_deduplicate := should_deduplicate a;
     use_saasbo := use_saasbo a;
     experiment := experiment a |}.
End Arg.

Definition parallelism_error : Py.Exception :=
  Py.ValueError ("If `max_parallelism_override` specified, cannot also apply "
                 ++ "`max_parallelism_cap`.").

(** Lines 266-270: the number of initialization trials, estimated when it is
    not given. *)
Definition initialization_trials (a : Arg.t) : Z :=
  match Arg.num_initialization_trials a with
  | Some n => n
  | None =>
      if Arg.use_batch_trials a then 1
      else Z.max 5 (len (parameters (Arg.search_space a)))
  end.

(** Lines 272-288: [(sobol_parallelism, bo_parallelism)]. *)
Definition parallelism
    (max_parallelism_override max_parallelism_cap : option Z)
    (enforce_sequential_optimization : bool) : option Z * option Z :=
  if Py.eq_int max_parallelism_override (-1) then (None, None)
  else if negb (is_None max_parallelism_override) then
    (max_parallelism_override, max_parallelism_override)
  else
    match max_parallelism_cap with
    | Some cap => (Some cap, Some (Z.min cap DEFAULT_BAYESIAN_PARALLELISM))
    | None =>
        if negb enforce_sequential_optimization then (None, None)
        else (None, Some DEFAULT_BAYESIAN_PARALLELISM)
    end.

Definition parallelism_ignored_message : LogMessage :=
  Text ("If `enforce_sequential_optimization` is False, max parallelism is "
        ++ "not enforced and other max parallelism settings will be ignored.").

Definition choose_generation_strategy (a : Arg.t) : Eff GenerationStrategy :=
  suggested_model <-
    _suggest_gp_model (Arg.search_space a) (Arg.num_trials a)
      (Arg.optimization_config a) (Arg.use_saasbo a) ;;
  gs <-
    match Arg.no_bayesian_optimization a, suggested_model with
    | false, Some suggested_model =>
        when (negb (Arg.enforce_sequential_optimization a)
              && (Py.truthy (Arg.max_parallelism_override a)
                  || Py.truthy (Arg.max_parallelism_cap a)))
          (emit (LogInfo parallelism_ignored_message)) ;;;
        (if Py.truthy (Arg.max_parallelism_override a)
            && Py.truthy (Arg.max_parallelism_cap a)
         then raise parallelism_error else ret tt) ;;;
        let num_initialization_trials := initialization_trials a in
        let '(sobol_parallelism, bo_parallelism) :=
          parallelism (Arg.max_parallelism_override a) (Arg.max_parallelism_cap a)
            (Arg.enforce_sequential_optimization a) in
        sobol_step <-
          _make_sobol_step num_initialization_trials None
            (Arg.enforce_sequential_optimization a) sobol_parallelism
            (Arg.random_seed a) (Arg.should_deduplicate a) ;;
        botorch_step <-
          _make_botorch_step (-1) None true bo_parallelism suggested_model
            (Arg.winsorize_botorch_model a) (Arg.winsorization_limits a)
            (Arg.should_deduplicate a) ;;
        gs <- new_GenerationStrategy [sobol_step; botorch_step] ;;
        emit (LogInfo (UsingBayesianOptimization gs num_initialization_trials)) ;;;
        ret gs
    | _, _ =>
        sobol_step <-
          _make_sobol_step (-1) None true None
            (Arg.random_seed a) (Arg.should_deduplicate a) ;;
        gs <- new_GenerationStrategy [sobol_step] ;;
        emit (LogInfo (Text "Using Sobol generation strategy.")) ;;;
        ret gs
    end ;;
  match Arg.experiment a with
  | Some experiment => ret {| steps := steps gs; experiment := Some experiment |}
  | None => ret gs
  end.

(** ** Statistics of a search space *)

(** The statistics of a search space, each stated on the list of its
    parameters. *)

Definition is_int_range_or_other (p : AxParameter) : bool :=
  match p with
  | RangeParameter t _ _ => ParameterType_eqb t INT
  | _ => true
  end.

(** Every range parameter is integer-typed. *)
Definition all_ranges_int (ss : SearchSpace) : bool :=
  forallb is_int_range_or_other (map snd (parameters ss)).

(** The number of points a parameter contributes: the number of values of a
    choice, [upper - lower] for an integer range. *)
Definition points_of (p : AxParameter) : Z :=
  match p with
  | ChoiceParameter values => len values
  | RangeParameter INT lower upper => upper - lower
  | _ => 1
  end.

Definition choices_of (p : AxParameter) : Z :=
  match p with
  | ChoiceParameter values => len values
  | _ => 0
  end.

Definition combinations_of (p : AxParameter) : Z :=
  match p with
  | ChoiceParameter values => len values
  | _ => 1
  end.

Definition is_range (p : AxParameter) : bool :=
  match p with
  | RangeParameter _ _ _ => true
  | _ => false
  end.

Definition product (l : list Z) : Z := fold_right Z.mul 1 l.
Definition sum (l : list Z) : Z := fold_right Z.add 0 l.

(** Choice value counts times integer-range spans. *)
Definition enumerable_points (ss : SearchSpace) : Z :=
  product (map points_of (map snd (parameters ss))).

(** The total number of choice-parameter values. *)
Definition choice_values (ss : SearchSpace) : Z :=
  sum (map choices_of (map snd (parameters ss))).

(** The product of the choice-parameter value counts. *)
Definition choice_combinations (ss : SearchSpace) : Z :=
  product (map combinations_of (map snd (parameters ss))).

(** The number of range parameters. *)
Definition range_parameters (ss : SearchSpace) : Z :=
  len (filter is_range (map snd (parameters ss))).

(** The first rule of [_suggest_gp_model] applies: the number of trials is
    known, all ranges are integer and the points fit in the trials. *)
Definition enumerable (ss : SearchSpace) (num_trials : option Z) : bool :=
  match num_trials with
  | None => false
  | Some n => all_ranges_int ss && (enumerable_points ss <=? n)
  end.


(** ** A run of [choose_generation_strategy], case by case *)

(** Both parallelism settings are given and true (line 259). *)
Definition conflicting_parallelism (a : Arg.t) : bool :=
  Py.truthy (Arg.max_parallelism_override a) && Py.truthy (Arg.max_parallelism_cap a).

(** Exactly one of the winsorization flag and the limits is given (line 65). *)
Definition inconsistent_winsorization (a : Arg.t) : bool :=
  (Arg.winsorize_botorch_model a && is_None (Arg.winsorization_limits a))
  || (negb (is_None (Arg.winsorization_limits a)) && negb (Arg.winsorize_botorch_model a)).

(** What [_suggest_gp_model] returns on the arguments of
    [choose_generation_strategy]. *)
Definition suggestion (a : Arg.t) : Eff (option Models) :=
  _suggest_gp_model (Arg.search_space a) (Arg.num_trials a)
    (Arg.optimization_config a) (Arg.use_saasbo a).

(** The model of the second step: the suggested one, unless Bayesian
    optimization is disabled or none is suggested (line 251). *)
Definition chosen_model (a : Arg.t) : option Models :=
  if Arg.no_bayesian_optimization a then None
  else match outcome (suggestion a) with
       | inr m => m
       | inl _ => None
       end.

Definition sobol_parallelism (a : Arg.t) : option Z :=
  fst (parallelism (Arg.max_parallelism_override a) (Arg.max_parallelism_cap a)
         (Arg.enforce_sequential_optimization a)).

Definition bo_parallelism (a : Arg.t) : option Z :=
  snd (parallelism (Arg.max_parallelism_override a) (Arg.max_parallelism_cap a)
         (Arg.enforce_sequential_optimization a)).

(** The exploration step of the two-step strategy, [v] observations required. *)
Definition exploration_step (a : Arg.t) (v : Z) : GenerationStep :=
  {| model := SOBOL;
     num_trials := initialization_trials a;
     min_trials_observed := v;
     enforce_num_trials := Arg.enforce_sequential_optimization a;
     max_parallelism := sobol_parallelism a;
     model_kwargs := Some (SobolKwargs true (Arg.random_seed a));
     should_deduplicate := Arg.should_deduplicate a |}.

(** The optimization step of the two-step strategy, with model [m]. *)
Definition optimization_step (a : Arg.t) (m : Models) : GenerationStep :=
  {| model := m;
     num_trials := -1;
     min_trials_observed := 0;
     enforce_num_trials := true;
     max_parallelism := bo_parallelism a;
     model_kwargs :=
       match Arg.winsorize_botorch_model a, Arg.winsorization_limits a with
       | true, Some limits =>
           Some (WinsorizeKwargs [Winsorize; Cont_X_trans; Y_trans]
                   (fst limits) (snd limits))
       | _, _ => None
       end;
     should_deduplicate := Arg.should_deduplicate a |}.

(** The only step of the one-step strategy. *)
Definition sampling_step (a : Arg.t) : GenerationStep :=
  {| model := SOBOL;
     num_trials := -1;
     min_trials_observed := 0;
     enforce_num_trials := true;
     max_parallelism := None;
     model_kwargs := Some (SobolKwargs true (Arg.random_seed a));
     should_deduplicate := Arg.should_deduplicate a |}.

Definition parallelism_ignored_log (a : Arg.t) : list Event :=
  if negb (Arg.enforce_sequential_optimization a)
     && (Py.truthy (Arg.max_parallelism_override a)
         || Py.truthy (Arg.max_parallelism_cap a))
  then [LogInfo parallelism_ignored_message] else [].

(** What [choose_generation_strategy] does after [_suggest_gp_model] has
    returned: the events it emits and its outcome. *)
Definition dispatch (a : Arg.t) : Eff GenerationStrategy :=
  match chosen_model a with
  | Some m =>
      if conflicting_parallelism a then
        (parallelism_ignored_log a, inl parallelism_error)
      else
        match Py.ceil_half (initialization_trials a) with
        | inl e => (parallelism_ignored_log a, inl e)
        | inr v =>
            if inconsistent_winsorization a then
              (parallelism_ignored_log a ++ [NewStep (exploration_step a v)],
               inl winsorization_error)
            else if initialization_trials a <? 1 then
              (parallelism_ignored_log a
               ++ [NewStep (exploration_step a v);
                   NewStep (optimization_step a m)],
               inl Py.UserInputError)
            else
              let built :=
                {| steps := [exploration_step a v; optimization_step a m];
                   experiment := None |} in
              (parallelism_ignored_log a
               ++ [NewStep (exploration_step a v);
                   NewStep (optimization_step a m);
                   NewStrategy built;
                   LogInfo (UsingBayesianOptimization built (initialization_trials a))],
               inr {| steps := steps built; experiment := Arg.experiment a |})
        end
  | None =>
      let built := {| steps := [sampling_step a]; experiment := None |} in
      ([NewStep (sampling_step a); NewStrategy built;
        LogInfo (Text "Using Sobol generation strategy.")],
       inr {| steps := steps built; experiment := Arg.experiment a |})
  end.

(** Events that build a step or a strategy, as opposed to log records. *)
Definition is_construction (ev : Event) : bool :=
  match ev with
  | NewStep _ | NewStrategy _ => true
  | LogInfo _ | LogWarn _ => false
  end.

Definition constructions (t : list Event) : list Event := filter is_construction t.

(** ** Inputs *)

(** One float range. *)
Definition unit_interval : SearchSpace :=
  {| parameters := [("x"%string, RangeParameter FLOAT 0 1)] |}.

(** Three integer ranges of span 10 each. *)
Definition int_cube : SearchSpace :=
  {| parameters := [("a"%string, RangeParameter INT 0 10);
                    ("b"%string, RangeParameter INT 0 10);
                    ("c"%string, RangeParameter INT 0 10)] |}.

(** Two choice parameters of three values each, and one float range. *)
Definition two_choices : SearchSpace :=
  {| parameters := [("kind"%string, ChoiceParameter [PStr "a"; PStr "b"; PStr "c"]);
                    ("mode"%string, ChoiceParameter [PInt 1; PInt 2; PInt 3]);
                    ("x"%string, RangeParameter FLOAT 0 1)] |}.

(** [max_parallelism_override=0, max_parallelism_cap=5] on one float range. *)
Definition zero_override_with_cap : Arg.t :=
  Arg.with_parallelism (Some 0) (Some 5) (Arg.defaults unit_interval).

(** [winsorize_botorch_model=True] without limits, on one float range. *)
Definition winsorize_without_limits : Arg.t :=
  Arg.with_winsorization true None (Arg.defaults unit_interval).

(** [winsorize_botorch_model=True] without limits, [num_trials=2000] on the
    integer cube, which can be enumerated. *)
Definition winsorize_without_limits_enumerable : Arg.t :=
  Arg.with_winsorization true None
    (Arg.with_trials false (Some 2000) None (Arg.defaults int_cube)).

(** [winsorization_limits=(0.1, 0.9)] without the flag, and
    [no_bayesian_optimization=True], on one float range. *)
Definition limits_without_winsorize_no_bo : Arg.t :=
  Arg.with_winsorization false (Some (Some (Py.tenths 1), Some (Py.tenths 9)))
    (Arg.with_trials true None None (Arg.defaults unit_interval)).

(** [winsorize_botorch_model=True] without limits and
    [num_initialization_trials=2**1025], on one float range. *)
Definition winsorize_without_limits_huge : Arg.t :=
  Arg.with_winsorization true None
    (Arg.with_trials false None (Some (2 ^ 1025)) (Arg.defaults unit_interval)).

(** [num_initialization_trials=7] on one float range. *)
Definition seven_initialization_trials : Arg.t :=
  Arg.with_trials false None (Some 7) (Arg.defaults unit_interval).

(** [choose_generation_strategy(search_space, num_initialization_trials=-1)]
    on the same search space. *)
Definition minus_one_initialization_trials : Arg.t :=
  Arg.with_trials false None (Some (-1)) (Arg.defaults unit_interval).

(** ** The fail-fast property *)

(** The two configuration errors. *)
Definition configuration_error (e : Py.Exception) : Prop :=
  e = winsorization_error \/ e = parallelism_error.

(** A configuration error is raised before any step or strategy is built. *)
Definition fails_before_any_step (a : Arg.t) : Prop :=
  forall e, configuration_error e ->
    outcome (choose_generation_strategy a) = inl e ->
    constructions (trace (choose_generation_strategy a)) = [].

(** ** Further inputs and observations *)

(** The same keyword arguments on another search space. *)
Definition with_search_space (search_space : SearchSpace) (a : Arg.t) : Arg.t :=
  {| Arg.search_space := search_space;
     Arg.use_batch_trials := Arg.use_batch_trials a;
     Arg.enforce_sequential_optimization := Arg.enforce_sequential_optimization a;
     Arg.random_seed := Arg.random_seed a;
     Arg.winsorize_botorch_model := Arg.winsorize_botorch_model a;
     Arg.winsorization_limits := Arg.winsorization_limits a;
     Arg.no_bayesian_optimization := Arg.no_bayesian_optimization a;
     Arg.num_trials := Arg.num_trials a;
     Arg.num_initialization_trials := Arg.num_initialization_trials a;
     Arg.max_parallelism_cap := Arg.max_parallelism_cap a;
     Arg.max_parallelism_override := Arg.max_parallelism_override a;
     Arg.optimization_config := Arg.optimization_config a;
     Arg.should_deduplicate := Arg.should_deduplicate a;
     Arg.use_saasbo := Arg.use_saasbo a;
     Arg.experiment := Arg.experiment a |}.

(** The warnings among the events of a run. *)
Definition is_warning (ev : Event) : bool :=
  match ev with
  | LogWarn _ => true
  | _ => false
  end.

Definition warnings (t : list Event) : list Event := filter is_warning t.

(** A parameter that is neither a choice nor a range. *)
Definition is_other (p : AxParameter) : bool :=
  match p with
  | FixedParameter _ => true
  | _ => false
  end.

(** [two_choices] with its entries in another order. *)
Definition two_choices_reordered : SearchSpace :=
  {| parameters := [("x"%string, RangeParameter FLOAT 0 1);
                    ("mode"%string, ChoiceParameter [PInt 1; PInt 2; PInt 3]);
                    ("kind"%string, ChoiceParameter [PStr "a"; PStr "b"; PStr "c"])] |}.

(** Only a fixed parameter. *)
Definition only_fixed : SearchSpace :=
  {| parameters := [("f"%string, FixedParameter (PInt 1))] |}.

(** An integer range of span zero beside one of span ten. *)
Definition flat_range : SearchSpace :=
  {| parameters := [("a"%string, RangeParameter INT 3 3);
                    ("b"%string, RangeParameter INT 0 10)] |}.

(** [enforce_sequential_optimization=False, max_parallelism_cap=2] on one
    float range. *)
Definition cap_without_enforcement : Arg.t :=
  {| Arg.search_space := unit_interval;
     Arg.use_batch_trials := false;
     Arg.enforce_sequential_optimization := false;
     Arg.random_seed := None;
     Arg.winsorize_botorch_model := false;
     Arg.winsorization_limits := None;
     Arg.no_bayesian_optimization := false;
     Arg.num_trials := None;
     Arg.num_initialization_trials := None;
     Arg.max_parallelism_cap := Some 2;
     Arg.max_parallelism_override := None;
     Arg.optimization_config := None;
     Arg.should_deduplicate := false;
     Arg.use_saasbo := false;
     Arg.experiment := None |}.

(** [winsorize_botorch_model=True, winsorization_limits=(None, 0.9)] on one
    float range. *)
Definition winsorize_upper : Arg.t :=
  Arg.with_winsorization true (Some (None, Some (Py.tenths 9)))
    (Arg.defaults unit_interval).

(** * Properties *)

(** ** Python floats *)

Lemma digits2_pos_bounds m :
  2 ^ (Z.pos (digits2_pos m) - 1) <= Z.pos m < 2 ^ Z.pos (digits2_pos m).
Proof.
  induction m as [m IH|m IH|]; cbn [digits2_pos].
  - rewrite Pos2Z.inj_succ, (Pos2Z.inj_xI m).
    replace (Z.succ (Z.pos (digits2_pos m)) - 1) with (Z.succ (Z.pos (digits2_pos m) - 1)) by lia.
    rewrite !Z.pow_succ_r by lia.
    set (A := 2 ^ _) in *; clearbody A. set (B := 2 ^ _) in *; clearbody B. lia.
  - rewrite Pos2Z.inj_succ, (Pos2Z.inj_xO m).
    replace (Z.succ (Z.pos (digits2_pos m)) - 1) with (Z.succ (Z.pos (digits2_pos m) - 1)) by lia.
    rewrite !Z.pow_succ_r by lia.
    set (A := 2 ^ _) in *; clearbody A. set (B := 2 ^ _) in *; clearbody B. lia.
  - cbn. lia.
Qed.

Lemma digits2_pos_unique m d :
  0 < d -> 2 ^ (d - 1) <= Z.pos m < 2 ^ d -> Z.pos (digits2_pos m) = d.
Proof.
  intros Hd [Hlo Hhi]. pose proof (digits2_pos_bounds m) as [Hlo' Hhi'].
  set (d' := Z.pos (digits2_pos m)) in *.
  assert (Hd' : 0 < d') by (subst d'; lia).
  destruct (Z.lt_trichotomy d' d) as [Hlt|[Heq|Hgt]]; [|assumption|].
  - assert (2 ^ d' <= 2 ^ (d - 1)) by (apply Z.pow_le_mono_r; lia). lia.
  - assert (2 ^ d <= 2 ^ (d' - 1)) by (apply Z.pow_le_mono_r; lia). lia.
Qed.

Lemma iter_xO_value m k : Z.pos (Pos.iter xO m k) = Z.pos m * 2 ^ Z.pos k.
Proof.
  change (Pos.iter xO m k) with (shift_pos k m).
  rewrite shift_pos_correct, Zpower_pos_nat, Zpower_nat_Z, positive_nat_Z. lia.
Qed.

(** A mantissa of exactly [prec] digits is not rounded. *)
Lemma binary_round_aux_exact s mz ez :
  Z.pos (digits2_pos mz) = 53 -> -1074 <= ez <= 971 ->
  binary_round_aux Py.prec Py.emax s (Z.pos mz) ez loc_Exact = S754_finite s mz ez.
Proof.
  intros Hd He. unfold Py.prec, Py.emax, binary_round_aux, shr_fexp, fexp, emin.
  cbn [Zdigits2 shr_record_of_loc]. rewrite Hd.
  replace (Z.max (53 + ez - 53) (3 - 1024 - 53) - ez) with 0 by lia.
  cbn [shr shr_m loc_of_shr_record round_nearest_even Zdigits2 shr_record_of_loc].
  rewrite Hd.
  replace (Z.max (53 + ez - 53) (3 - 1024 - 53) - ez) with 0 by lia.
  cbn [shr shr_m].
  replace (ez <=? 1024 - 53) with true by (symmetry; apply Z.leb_le; lia).
  reflexivity.
Qed.

Lemma binary_round_half s m :
  Z.pos m < 2 ^ 53 ->
  exists mz p,
    binary_round Py.prec Py.emax s m (-1) = S754_finite s mz (Z.neg p)
    /\ Z.pos mz * 2 = Z.pos m * 2 ^ Z.pos p.
Proof.
  intros Hm. pose proof (digits2_pos_bounds m) as [Hlo Hhi].
  set (d := Z.pos (digits2_pos m)) in *.
  assert (Hd : 0 < d <= 53).
  { split; [subst d; lia|].
    destruct (Z.le_gt_cases d 53) as [|Hgt]; [assumption|].
    assert (2 ^ 53 <= 2 ^ (d - 1)) by (apply Z.pow_le_mono_r; lia). lia. }
  unfold Py.prec, Py.emax, binary_round, fexp, emin. fold d.
  replace (Z.max (d + -1 - 53) (3 - 1024 - 53)) with (d - 54) by lia.
  unfold shl_align.
  destruct (d - 54 - -1) as [|q|q] eqn:Hq; try lia.
  - assert (d = 53) by lia.
    exists m, 1%positive. split.
    + apply (binary_round_aux_exact s m (-1)); [fold d; lia | lia].
    + lia.
  - assert (Hq' : Z.pos q = 53 - d) by lia.
    destruct (d - 54) as [|r|r] eqn:Hr; try lia.
    exists (Pos.iter xO m q), r. split.
    + apply (binary_round_aux_exact s (Pos.iter xO m q) (Z.neg r)); [|lia].
      apply digits2_pos_unique; [lia|].
      rewrite iter_xO_value, Hq'.
      assert (E1 : 2 ^ 53 = 2 ^ d * 2 ^ (53 - d))
        by (rewrite <- Z.pow_add_r by lia; f_equal; lia).
      assert (E2 : 2 ^ (53 - 1) = 2 ^ (d - 1) * 2 ^ (53 - d))
        by (rewrite <- Z.pow_add_r by lia; f_equal; lia).
      rewrite E2, E1.
      assert (0 < 2 ^ (53 - d)) by (apply Z.pow_pos_nonneg; lia).
      clear E1 E2 Hm. set (P := 2 ^ (53 - d)) in *; clearbody P.
      set (A := 2 ^ (d - 1)) in *; clearbody A.
      set (B := 2 ^ d) in *; clearbody B. nia.
    + rewrite iter_xO_value, Hq'.
      replace (Z.pos r) with (1 + (53 - d)) by lia.
      rewrite Z.pow_add_r by lia. lia.
Qed.

(** On an [int] below [2 ^ 53] in absolute value, [n / 2] is exact and
    [ceil(n / 2)] is the integer ceiling of the half. *)
Lemma ceil_half_exact n :
  Z.abs n < 2 ^ 53 -> Py.ceil_half n = inr ((n + 1) / 2).
Proof.
  intros Hn. unfold Py.ceil_half, Py.int_truediv_2.
  destruct n as [|m|m]; [reflexivity| |]; cbn [binary_normalize].
  - destruct (binary_round_half false m) as (mz & p & -> & Hmz); [lia|].
    cbn [Py.ceil]. f_equal.
    rewrite Zpower_pos_nat, Zpower_nat_Z, positive_nat_Z.
    assert (Hp : 2 ^ Z.pos p = 2 * 2 ^ (Z.pos p - 1))
      by (rewrite <- Z.pow_succ_r by lia; f_equal; lia).
    assert (Hq : 0 < 2 ^ (Z.pos p - 1)) by (apply Z.pow_pos_nonneg; lia).
    rewrite Hp in *. set (Q := 2 ^ (Z.pos p - 1)) in *; clearbody Q.
    assert (Z.pos mz = Z.pos m * Q) as -> by nia.
    replace (- (Z.pos m * Q)) with (- Z.pos m * Q) by ring.
    rewrite Z.div_mul_cancel_r by lia.
    Z.to_euclidean_division_equations; lia.
  - destruct (binary_round_half true m) as (mz & p & -> & Hmz); [lia|].
    cbn [Py.ceil]. f_equal.
    rewrite Zpower_pos_nat, Zpower_nat_Z, positive_nat_Z.
    assert (Hp : 2 ^ Z.pos p = 2 * 2 ^ (Z.pos p - 1))
      by (rewrite <- Z.pow_succ_r by lia; f_equal; lia).
    assert (Hq : 0 < 2 ^ (Z.pos p - 1)) by (apply Z.pow_pos_nonneg; lia).
    rewrite Hp in *. set (Q := 2 ^ (Z.pos p - 1)) in *; clearbody Q.
    replace (- Z.neg mz) with (Z.pos mz) by lia.
    assert (Z.pos mz = Z.pos m * Q) as -> by nia.
    rewrite Z.div_mul_cancel_r by lia.
    Z.to_euclidean_division_equations; lia.
Qed.

(** ** The loop *)

Lemma fold_count_parameter ps : forall c,
  fold_left count_parameter ps c =
  {| num_continuous_parameters :=
       num_continuous_parameters c + len (filter is_range ps);
     num_discrete_choices := num_discrete_choices c + sum (map choices_of ps);
     num_discrete_combinations :=
       num_discrete_combinations c * product (map combinations_of ps);
     num_possible_points := num_possible_points c * product (map points_of ps);
     all_range_parameters_are_int :=
       all_range_parameters_are_int c && forallb is_int_range_or_other ps |}.
Proof.
  induction ps as [|p ps IH]; intros [nc nd ncomb np ai].
  - cbn. f_equal; try lia. now rewrite andb_true_r.
  - cbn [fold_left]. rewrite IH. clear IH.
    destruct p as [values|t lower upper|value]; cbn -[Z.mul Z.add Z.of_nat].
    + f_equal; unfold len, sum, product; ring.
    + destruct t; cbn -[Z.mul Z.add Z.of_nat]; unfold len, sum, product;
        cbn [List.length]; rewrite ?andb_false_r; f_equal; lia.
    + f_equal; unfold sum, product; ring.
Qed.

Lemma count_parameters_spec ss :
  count_parameters ss =
  {| num_continuous_parameters := range_parameters ss;
     num_discrete_choices := choice_values ss;
     num_discrete_combinations := choice_combinations ss;
     num_possible_points := enumerable_points ss;
     all_range_parameters_are_int := all_ranges_int ss |}.
Proof.
  unfold count_parameters. rewrite fold_count_parameter. cbn -[Z.mul].
  unfold range_parameters, choice_values, choice_combinations,
    enumerable_points, all_ranges_int.
  f_equal; lia.
Qed.

Lemma enumerable_iff ss num_trials :
  enumerable ss num_trials = true <->
  exists n, num_trials = Some n
            /\ all_ranges_int ss = true /\ enumerable_points ss <= n.
Proof.
  unfold enumerable. split.
  - destruct num_trials as [n|]; [|discriminate].
    intros H. apply andb_true_iff in H. destruct H as [Hall Hle].
    exists n. repeat split; auto. now apply Z.leb_le.
  - intros (n & -> & Hall & Hle). rewrite Hall. now apply Z.leb_le.
Qed.

(** ** The effect monad *)

Lemma outcome_bind {A B} (m : Eff A) (k : A -> Eff B) :
  outcome (bind m k) =
  match outcome m with
  | inl e => inl e
  | inr a => outcome (k a)
  end.
Proof.
  destruct m as [t [e|a]]; cbn; [reflexivity|].
  now destruct (k a).
Qed.

Lemma trace_bind {A B} (m : Eff A) (k : A -> Eff B) :
  trace (bind m k) =
  trace m ++ match outcome m with
             | inl _ => []
             | inr a => trace (k a)
             end.
Proof.
  destruct m as [t [e|a]]; cbn; [now rewrite app_nil_r|].
  now destruct (k a).
Qed.

(** ** [_suggest_gp_model] *)

(** The branch [_suggest_gp_model] takes, on the statistics of the space. *)
Lemma suggest_gp_model_outcome ss num_trials oc saasbo :
  outcome (_suggest_gp_model ss num_trials oc saasbo) =
  inr (if enumerable ss num_trials then None
       else if range_parameters ss >? choice_values ss then
         Some (if moo_problem oc && saasbo then FULLYBAYESIANMOO
               else if moo_problem oc && negb saasbo then MOO
               else if saasbo then FULLYBAYESIAN
               else GPEI)
       else if negb (moo_problem oc)
               && (choice_combinations ss <=? MAX_DISCRETE_COMBINATIONS)
       then Some BO_MIXED
       else None).
Proof.
  unfold _suggest_gp_model, enumerable.
  rewrite count_parameters_spec.
  cbn [num_continuous_parameters num_discrete_choices
       num_discrete_combinations num_possible_points
       all_range_parameters_are_int].
  destruct num_trials as [n|];
    [destruct (all_ranges_int ss && (enumerable_points ss <=? n))|];
    try (destruct saasbo; reflexivity);
    destruct (range_parameters ss >? choice_values ss);
    destruct (moo_problem oc), saasbo; try reflexivity;
    cbn [negb andb];
    destruct (choice_combinations ss <=? MAX_DISCRETE_COMBINATIONS);
    reflexivity.
Qed.

(** [_suggest_gp_model] never raises. *)
Lemma suggest_gp_model_returns ss num_trials oc saasbo :
  exists m, outcome (_suggest_gp_model ss num_trials oc saasbo) = inr m.
Proof. rewrite suggest_gp_model_outcome. eauto. Qed.

(** C3. Enumerable-space law: when every range parameter is integer-typed
    and the product of the choice value counts and the integer-range spans
    ([upper - lower] each) is at most the known number of trials,
    [_suggest_gp_model] returns [None], whatever the optimization config and
    [use_saasbo]. *)
Theorem enumerable_space_suggests_None ss n oc saasbo :
  all_ranges_int ss = true ->
  enumerable_points ss <= n ->
  outcome (_suggest_gp_model ss (Some n) oc saasbo) = inr None.
Proof.
  intros Hall Hle. rewrite suggest_gp_model_outcome.
  unfold enumerable. rewrite Hall.
  now apply Z.leb_le in Hle as ->.
Qed.

Lemma enumerable_space_suggests_None_witness :
  all_ranges_int int_cube = true
  /\ enumerable_points int_cube <= 2000
  /\ outcome (_suggest_gp_model int_cube (Some 2000) None true) = inr None.
Proof.
  split; [reflexivity|]. split; [vm_compute; discriminate|].
  apply (enumerable_space_suggests_None int_cube 2000 None true);
    [reflexivity | vm_compute; discriminate].
Defined.

(** C4. Continuous-dominant space: when the first rule does not apply and
    there are strictly more range parameters than choice-parameter values,
    [_suggest_gp_model] returns [FULLYBAYESIANMOO], [MOO], [FULLYBAYESIAN] or
    [GPEI] by multi-objective and [use_saasbo]. *)
Theorem continuous_dominant_model ss num_trials oc saasbo :
  enumerable ss num_trials = false ->
  range_parameters ss > choice_values ss ->
  outcome (_suggest_gp_model ss num_trials oc saasbo) =
  inr (Some match moo_problem oc, saasbo with
            | true, true => FULLYBAYESIANMOO
            | true, false => MOO
            | false, true => FULLYBAYESIAN
            | false, false => GPEI
            end).
Proof.
  intros Hen Hgt. rewrite suggest_gp_model_outcome, Hen.
  apply Z.gtb_gt in Hgt. rewrite Hgt.
  now destruct (moo_problem oc), saasbo.
Qed.

Lemma continuous_dominant_model_witness :
  enumerable unit_interval None = false
  /\ range_parameters unit_interval > choice_values unit_interval
  /\ outcome (_suggest_gp_model unit_interval None
                (Some {| is_moo_problem := true |}) true) =
     inr (Some FULLYBAYESIANMOO).
Proof.
  split; [reflexivity|]. split; [reflexivity|].
  apply (continuous_dominant_model unit_interval None
           (Some {| is_moo_problem := true |}) true); reflexivity.
Defined.

(** C6. Bounded categorical blow-up and fallback: when neither the first
    rule nor the continuous-dominant rule applies, [_suggest_gp_model] returns
    [BO_MIXED] if the problem is single-objective (in particular without an
    optimization config) and the choice value counts multiply to at most 65,
    and [None] otherwise. *)
Theorem categorical_model ss num_trials oc saasbo :
  enumerable ss num_trials = false ->
  range_parameters ss <= choice_values ss ->
  (moo_problem oc = false -> choice_combinations ss <= 65 ->
   outcome (_suggest_gp_model ss num_trials oc saasbo) = inr (Some BO_MIXED))
  /\ (moo_problem oc = true \/ 65 < choice_combinations ss ->
      outcome (_suggest_gp_model ss num_trials oc saasbo) = inr None)
  /\ moo_problem None = false.
Proof.
  intros Hen Hle. rewrite suggest_gp_model_outcome, Hen.
  assert (Hgt : (range_parameters ss >? choice_values ss) = false).
  { rewrite Z.gtb_ltb. apply Z.ltb_ge. lia. }
  rewrite Hgt. unfold MAX_DISCRETE_COMBINATIONS. repeat split.
  - intros -> H65. now apply Z.leb_le in H65 as ->.
  - intros [-> | H65]; [reflexivity|].
    apply Z.leb_gt in H65. rewrite H65. now rewrite andb_false_r.
Qed.

Lemma categorical_model_witness :
  enumerable two_choices None = false
  /\ range_parameters two_choices <= choice_values two_choices
  /\ outcome (_suggest_gp_model two_choices None None false) = inr (Some BO_MIXED).
Proof.
  split; [reflexivity|]. split; [vm_compute; discriminate|].
  apply (categorical_model two_choices None None false);
    [reflexivity | vm_compute; discriminate | reflexivity
     | vm_compute; discriminate].
Defined.

(** ** [choose_generation_strategy] *)

Lemma or_ceil_half_None n : or_ceil_half None n = ([], Py.ceil_half n).
Proof.
  unfold or_ceil_half, Py.ceil_half, lift, bind.
  destruct (Py.int_truediv_2 n) as [e|x]; [reflexivity|].
  now destruct (Py.ceil x).
Qed.

Lemma ceil_half_minus_one : Py.ceil_half (-1) = inr 0.
Proof. reflexivity. Qed.

Lemma suggestion_run a :
  exists t m, suggestion a = (t, inr m).
Proof.
  destruct (suggest_gp_model_returns (Arg.search_space a) (Arg.num_trials a)
              (Arg.optimization_config a) (Arg.use_saasbo a)) as [m Hm].
  unfold suggestion. destruct (_suggest_gp_model _ _ _ _) as [t r].
  cbn in Hm. subst r. eauto.
Qed.

(** A run of [choose_generation_strategy] is the run of [_suggest_gp_model]
    followed by [dispatch]. *)
Lemma choose_generation_strategy_run a :
  choose_generation_strategy a =
  (trace (suggestion a) ++ trace (dispatch a), outcome (dispatch a)).
Proof.
  destruct (suggestion_run a) as (t & sm & Hs).
  unfold choose_generation_strategy, dispatch, chosen_model.
  fold (suggestion a). rewrite Hs. cbn [trace outcome fst snd].
  unfold exploration_step, optimization_step, sampling_step,
    sobol_parallelism, bo_parallelism, parallelism_ignored_log,
    conflicting_parallelism, inconsistent_winsorization.
  destruct (parallelism _ _ _) as [sp bp].
  unfold _make_sobol_step, _make_botorch_step.
  rewrite !or_ceil_half_None, ceil_half_minus_one.
  destruct (Arg.no_bayesian_optimization a), sm as [m|];
    destruct (Arg.experiment a);
    try (cbn; rewrite ?app_nil_r; reflexivity).
  all: destruct (Py.ceil_half (initialization_trials a)) as [err|v].
  all: destruct (negb (Arg.enforce_sequential_optimization a)
              && (Py.truthy (Arg.max_parallelism_override a)
                  || Py.truthy (Arg.max_parallelism_cap a))).
  all: destruct (Py.truthy (Arg.max_parallelism_override a)
                 && Py.truthy (Arg.max_parallelism_cap a)).
  all: try (cbn; rewrite ?app_nil_r; reflexivity).
  all: destruct (Arg.winsorize_botorch_model a), (Arg.winsorization_limits a).
  all: try (cbn; rewrite ?app_nil_r; reflexivity).
  all: unfold new_GenerationStrategy; cbn.
  all: destruct (initialization_trials a =? -1) eqn:Hminus;
    destruct (initialization_trials a <? 1) eqn:Hless;
    try (apply Z.eqb_eq in Hminus; apply Z.ltb_ge in Hless; lia).
  all: cbn; rewrite ?app_nil_r; reflexivity.
Qed.

Lemma choose_generation_strategy_outcome a :
  outcome (choose_generation_strategy a) = outcome (dispatch a).
Proof. now rewrite choose_generation_strategy_run. Qed.

Lemma choose_generation_strategy_trace a :
  trace (choose_generation_strategy a) = trace (suggestion a) ++ trace (dispatch a).
Proof. now rewrite choose_generation_strategy_run. Qed.

Lemma chosen_model_Some a m :
  chosen_model a = Some m <->
  Arg.no_bayesian_optimization a = false /\ outcome (suggestion a) = inr (Some m).
Proof.
  unfold chosen_model. destruct (suggestion_run a) as (t & sm & ->).
  cbn [outcome snd]. destruct (Arg.no_bayesian_optimization a); split.
  - discriminate.
  - intros [H _]. discriminate.
  - intros ->. auto.
  - intros [_ H]. now inversion H.
Qed.

Lemma chosen_model_None a :
  chosen_model a = None <->
  outcome (suggestion a) = inr None \/ Arg.no_bayesian_optimization a = true.
Proof.
  unfold chosen_model. destruct (suggestion_run a) as (t & sm & ->).
  cbn [outcome snd]. destruct (Arg.no_bayesian_optimization a); split; auto.
  - intros ->. auto.
  - intros [H | H]; [now inversion H | discriminate].
Qed.

(** [ceil(n / 2)] fails only by overflow of the division. *)
Lemma ceil_half_error n e :
  Py.ceil_half n = inl e ->
  e = Py.OverflowError "integer division result too large for a float".
Proof.
  unfold Py.ceil_half, Py.int_truediv_2.
  destruct (binary_normalize Py.prec Py.emax n (-1) false); cbn;
    intros H; now inversion H.
Qed.

Lemma configuration_errors_differ : winsorization_error <> parallelism_error.
Proof. intros H. vm_compute in H. discriminate H. Qed.

(** [_suggest_gp_model] only logs. *)
Lemma suggestion_builds_nothing a : constructions (trace (suggestion a)) = [].
Proof.
  unfold suggestion, _suggest_gp_model, when.
  repeat match goal with
         | |- context [if ?b then _ else _] => destruct b
         end; reflexivity.
Qed.


(** The one-step strategy is returned whenever no model is chosen. *)
Lemma one_step_strategy_returned a :
  chosen_model a = None ->
  outcome (choose_generation_strategy a) =
  inr {| steps := [sampling_step a]; experiment := Arg.experiment a |}.
Proof.
  intros Hm. rewrite choose_generation_strategy_outcome.
  unfold dispatch. now rewrite Hm.
Qed.

(** What a returned strategy is. *)
Lemma returned_strategy a gs :
  outcome (choose_generation_strategy a) = inr gs ->
  match chosen_model a with
  | Some m =>
      exists v, Py.ceil_half (initialization_trials a) = inr v
                /\ gs = {| steps := [exploration_step a v; optimization_step a m];
                           experiment := Arg.experiment a |}
  | None => gs = {| steps := [sampling_step a]; experiment := Arg.experiment a |}
  end.
Proof.
  rewrite choose_generation_strategy_outcome. unfold dispatch.
  destruct (chosen_model a) as [m|]; cbn [outcome snd].
  - destruct (conflicting_parallelism a); [discriminate|].
    destruct (Py.ceil_half (initialization_trials a)) as [e|v]; [discriminate|].
    destruct (inconsistent_winsorization a); [discriminate|].
    destruct (initialization_trials a <? 1); [discriminate|].
    cbn [outcome snd]. intros H. inversion H. eauto.
  - intros H. now inversion H.
Qed.

(** A two-step strategy is returned only with at least one initialization
    trial: the constructor refuses the others. *)
Lemma returned_two_steps_positive a m gs :
  chosen_model a = Some m ->
  outcome (choose_generation_strategy a) = inr gs ->
  1 <= initialization_trials a.
Proof.
  intros Hm. rewrite choose_generation_strategy_outcome. unfold dispatch.
  rewrite Hm.
  destruct (conflicting_parallelism a); [discriminate|].
  destruct (Py.ceil_half (initialization_trials a)) as [e|v]; [discriminate|].
  destruct (inconsistent_winsorization a); [discriminate|].
  destruct (initialization_trials a <? 1) eqn:Hn; [discriminate|].
  intros _. now apply Z.ltb_ge in Hn.
Qed.

(** With a model chosen, the parallelism error is raised exactly when both
    settings are given and true. *)
Lemma parallelism_error_iff a m :
  chosen_model a = Some m ->
  outcome (choose_generation_strategy a) = inl parallelism_error <->
  conflicting_parallelism a = true.
Proof.
  intros Hm. rewrite choose_generation_strategy_outcome.
  unfold dispatch. rewrite Hm.
  destruct (conflicting_parallelism a); [tauto|].
  split; [|discriminate].
  destruct (Py.ceil_half (initialization_trials a)) as [e|v] eqn:Hv.
  - apply ceil_half_error in Hv. subst e. discriminate.
  - destruct (inconsistent_winsorization a); cbn [outcome snd].
    + intros H. exfalso. apply configuration_errors_differ. congruence.
    + destruct (initialization_trials a <? 1); discriminate.
Qed.

(** C1. With [max_parallelism_override=0] and [max_parallelism_cap=5] given
    together, [choose_generation_strategy] chooses a model and returns the
    two-step strategy with concurrency 0 in both steps: no error is raised. *)
Theorem zero_override_with_cap_accepted :
  chosen_model zero_override_with_cap = Some GPEI
  /\ Arg.max_parallelism_override zero_override_with_cap = Some 0
  /\ Arg.max_parallelism_cap zero_override_with_cap = Some 5
  /\ outcome (choose_generation_strategy zero_override_with_cap) =
     inr {| steps :=
              [ {| model := SOBOL; num_trials := 5; min_trials_observed := 3;
                   enforce_num_trials := true; max_parallelism := Some 0;
                   model_kwargs := Some (SobolKwargs true None);
                   should_deduplicate := false |};
                {| model := GPEI; num_trials := -1; min_trials_observed := 0;
                   enforce_num_trials := true; max_parallelism := Some 0;
                   model_kwargs := None; should_deduplicate := false |} ];
            experiment := None |}.
Proof. repeat split; reflexivity. Qed.

(** The winsorization request is inconsistent exactly in the two cases the
    specification names. *)
Lemma inconsistent_winsorization_iff a :
  inconsistent_winsorization a = true <->
  (Arg.winsorize_botorch_model a = true /\ Arg.winsorization_limits a = None)
  \/ (Arg.winsorize_botorch_model a = false
      /\ exists limits, Arg.winsorization_limits a = Some limits).
Proof.
  unfold inconsistent_winsorization.
  destruct (Arg.winsorize_botorch_model a), (Arg.winsorization_limits a) as [l|];
    cbn; split; try discriminate; eauto.
  - intros [[_ H] | [H _]]; discriminate.
  - intros [[H _] | [_ [l H]]]; discriminate.
Qed.

(** C2, as the code has it. When a model is chosen (one is suggested and
    [no_bayesian_optimization] is false) and [ceil] of half the number of
    initialization trials does not overflow, an inconsistent winsorization
    request makes [choose_generation_strategy] fail with a [ValueError]: the
    winsorization error, or the parallelism error when that one fires first. *)
Theorem inconsistent_winsorization_rejected a m v :
  chosen_model a = Some m ->
  inconsistent_winsorization a = true ->
  Py.ceil_half (initialization_trials a) = inr v ->
  outcome (choose_generation_strategy a) =
  inl (if conflicting_parallelism a then parallelism_error
       else winsorization_error).
Proof.
  intros Hm Hw Hv. rewrite choose_generation_strategy_outcome.
  unfold dispatch. rewrite Hm, Hv, Hw.
  now destruct (conflicting_parallelism a).
Qed.

Lemma inconsistent_winsorization_rejected_witness :
  chosen_model winsorize_without_limits = Some GPEI
  /\ inconsistent_winsorization winsorize_without_limits = true
  /\ Py.ceil_half (initialization_trials winsorize_without_limits) = inr 3
  /\ outcome (choose_generation_strategy winsorize_without_limits) =
     inl winsorization_error.
Proof.
  split; [reflexivity|]. split; [reflexivity|]. split; [reflexivity|].
  apply (inconsistent_winsorization_rejected winsorize_without_limits GPEI 3);
    reflexivity.
Defined.

(** The exploration step is built first: when its [ceil] overflows, that is
    the error raised, whatever the winsorization request. *)
Example overflow_before_winsorization_error :
  chosen_model winsorize_without_limits_huge = Some GPEI
  /\ inconsistent_winsorization winsorize_without_limits_huge = true
  /\ outcome (choose_generation_strategy winsorize_without_limits_huge) =
     inl (Py.OverflowError "integer division result too large for a float").
Proof. repeat split; vm_compute; reflexivity. Qed.

(** C2 fails as stated: with [winsorize=True] and no limits on a space that
    can be enumerated, and with limits [(0.1, 0.9)] and no flag when Bayesian
    optimization is disabled, the one-step strategy is returned. *)
Lemma inconsistent_winsorization_accepted :
  (Arg.winsorize_botorch_model winsorize_without_limits_enumerable = true
   /\ Arg.winsorization_limits winsorize_without_limits_enumerable = None
   /\ outcome (choose_generation_strategy winsorize_without_limits_enumerable) =
      inr {| steps := [sampling_step winsorize_without_limits_enumerable];
             experiment := None |})
  /\ (Arg.winsorize_botorch_model limits_without_winsorize_no_bo = false
      /\ Arg.winsorization_limits limits_without_winsorize_no_bo =
         Some (Some (Py.tenths 1), Some (Py.tenths 9))
      /\ outcome (choose_generation_strategy limits_without_winsorize_no_bo) =
         inr {| steps := [sampling_step limits_without_winsorize_no_bo];
                experiment := None |}).
Proof. repeat split; reflexivity. Qed.

(** C5. When a model is chosen, the concurrency limits of the returned
    strategy, exploration step first, are: none for both when the override is
    [-1]; the override for both when it is given otherwise; the cap and
    [min(cap, 3)] when only the cap is given; none for both when neither is
    given and [enforce_sequential_optimization] is false; none and [3] when
    neither is given and it is true. *)
Theorem concurrency_limits a m gs :
  chosen_model a = Some m ->
  outcome (choose_generation_strategy a) = inr gs ->
  map max_parallelism (steps gs) =
  match Arg.max_parallelism_override a, Arg.max_parallelism_cap a with
  | Some override, _ =>
      if override =? -1 then [None; None] else [Some override; Some override]
  | None, Some cap => [Some cap; Some (Z.min cap 3)]
  | None, None =>
      if Arg.enforce_sequential_optimization a then [None; Some 3]
      else [None; None]
  end.
Proof.
  intros Hm Hgs. apply returned_strategy in Hgs. rewrite Hm in Hgs.
  destruct Hgs as (v & _ & ->). cbn [steps map max_parallelism].
  unfold exploration_step, optimization_step, sobol_parallelism,
    bo_parallelism, parallelism, Py.eq_int, is_None, DEFAULT_BAYESIAN_PARALLELISM.
  cbn [max_parallelism].
  destruct (Arg.max_parallelism_override a) as [o|],
           (Arg.max_parallelism_cap a) as [c|];
    try destruct (o =? -1);
    try destruct (Arg.enforce_sequential_optimization a); reflexivity.
Qed.

Lemma concurrency_limits_witness :
  chosen_model (Arg.defaults unit_interval) = Some GPEI
  /\ exists gs,
       outcome (choose_generation_strategy (Arg.defaults unit_interval)) = inr gs
       /\ map max_parallelism (steps gs) = [None; Some 3].
Proof.
  split; [reflexivity|].
  eexists. split; [reflexivity|].
  apply (concurrency_limits (Arg.defaults unit_interval) GPEI); reflexivity.
Defined.

Lemma constructions_app t1 t2 :
  constructions (t1 ++ t2) = constructions t1 ++ constructions t2.
Proof. apply filter_app. Qed.

Lemma parallelism_ignored_log_builds_nothing a :
  constructions (parallelism_ignored_log a) = [].
Proof. unfold parallelism_ignored_log. now destruct (_ && _). Qed.

(** What has been built when [choose_generation_strategy] raises: nothing,
    the exploration step alone, or the two steps. *)
Lemma constructions_on_error a e :
  outcome (choose_generation_strategy a) = inl e ->
  (e <> winsorization_error
   /\ constructions (trace (choose_generation_strategy a)) = [])
  \/ (e = winsorization_error
      /\ exists v, constructions (trace (choose_generation_strategy a)) =
                   [NewStep (exploration_step a v)])
  \/ (e = Py.UserInputError
      /\ exists v m, constructions (trace (choose_generation_strategy a)) =
                     [NewStep (exploration_step a v);
                      NewStep (optimization_step a m)]).
Proof.
  rewrite choose_generation_strategy_outcome, choose_generation_strategy_trace,
    constructions_app, suggestion_builds_nothing.
  cbn [app]. unfold dispatch.
  destruct (chosen_model a) as [m|]; [|discriminate].
  destruct (conflicting_parallelism a).
  - cbn [outcome trace fst snd]. intros H. inversion H. left.
    split; [|apply parallelism_ignored_log_builds_nothing].
    intros E. now apply configuration_errors_differ.
  - destruct (Py.ceil_half (initialization_trials a)) as [e'|v] eqn:Hv.
    + cbn [outcome trace fst snd]. intros H. inversion H. subst e'. left.
      split; [|apply parallelism_ignored_log_builds_nothing].
      apply ceil_half_error in Hv. rewrite Hv. discriminate.
    + destruct (inconsistent_winsorization a).
      * cbn [outcome trace fst snd]. intros H. inversion H. right. left.
        split; [reflexivity|]. exists v.
        now rewrite constructions_app, parallelism_ignored_log_builds_nothing.
      * destruct (initialization_trials a <? 1); [|discriminate].
        cbn [outcome trace fst snd]. intros H. inversion H. right. right.
        split; [reflexivity|]. exists v, m.
        now rewrite constructions_app, parallelism_ignored_log_builds_nothing.
Qed.

(** C7, as the code has it. The parallelism error is raised before any step
    is built. The winsorization error is raised by [_make_botorch_step], when
    the exploration step has been built and nothing else. No strategy is
    built, and none is returned, when [choose_generation_strategy] raises. *)
Theorem configuration_errors_before_strategy a :
  (outcome (choose_generation_strategy a) = inl parallelism_error ->
   constructions (trace (choose_generation_strategy a)) = [])
  /\ (outcome (choose_generation_strategy a) = inl winsorization_error ->
      exists v, constructions (trace (choose_generation_strategy a)) =
                [NewStep (exploration_step a v)])
  /\ (forall e, outcome (choose_generation_strategy a) = inl e ->
      forall gs, ~ In (NewStrategy gs) (trace (choose_generation_strategy a))).
Proof.
  repeat split.
  - intros H.
    destruct (constructions_on_error a _ H) as [[_ Ht] | [[E _] | [E _]]];
      [assumption | | discriminate E].
    symmetry in E. now apply configuration_errors_differ in E.
  - intros H.
    destruct (constructions_on_error a _ H) as [[E _] | [[_ Ht] | [E _]]];
      [now elim E | assumption | discriminate E].
  - intros e H gs Hin.
    assert (Hc : In (NewStrategy gs)
                   (constructions (trace (choose_generation_strategy a))))
      by (apply filter_In; split; [assumption | reflexivity]).
    destruct (constructions_on_error a _ H)
      as [[_ Ht] | [[_ [v Ht]] | [_ (v & m & Ht)]]];
      rewrite Ht in Hc; cbn in Hc; [tauto | |].
    + destruct Hc as [Hc | []]. discriminate Hc.
    + destruct Hc as [Hc | [Hc | []]]; discriminate Hc.
Qed.

Lemma configuration_errors_before_strategy_witness :
  outcome (choose_generation_strategy winsorize_without_limits) =
    inl winsorization_error
  /\ exists v, constructions (trace (choose_generation_strategy winsorize_without_limits)) =
               [NewStep (exploration_step winsorize_without_limits v)].
Proof.
  split; [reflexivity|].
  apply (configuration_errors_before_strategy winsorize_without_limits).
  reflexivity.
Defined.

(** C7 fails as stated: with [winsorize=True] and no limits on a float range,
    the winsorization error is raised after the exploration step is built. *)
Lemma winsorization_error_after_exploration_step :
  ~ fails_before_any_step winsorize_without_limits.
Proof.
  intros H.
  specialize (H winsorization_error (or_introl eq_refl) eq_refl).
  vm_compute in H. discriminate H.
Qed.



(** C9. A returned strategy has two steps exactly when [_suggest_gp_model]
    returned a model and [no_bayesian_optimization] is false: then the first
    is the Sobol step with [num_initialization_trials] trials and the second
    the suggested model with [-1] trials. Otherwise it has one step: Sobol,
    [-1] trials, [enforce_num_trials] true and no concurrency limit. *)
Theorem strategy_shape a gs :
  outcome (choose_generation_strategy a) = inr gs ->
  (List.length (steps gs) = 2%nat <->
   (exists m, outcome (_suggest_gp_model (Arg.search_space a) (Arg.num_trials a)
                         (Arg.optimization_config a) (Arg.use_saasbo a))
              = inr (Some m))
   /\ Arg.no_bayesian_optimization a = false)
  /\ (forall m,
        outcome (_suggest_gp_model (Arg.search_space a) (Arg.num_trials a)
                   (Arg.optimization_config a) (Arg.use_saasbo a))
        = inr (Some m) ->
        Arg.no_bayesian_optimization a = false ->
        exists first second,
          steps gs = [first; second]
          /\ model first = SOBOL
          /\ num_trials first = initialization_trials a
          /\ model second = m
          /\ num_trials second = -1)
  /\ (outcome (_suggest_gp_model (Arg.search_space a) (Arg.num_trials a)
                 (Arg.optimization_config a) (Arg.use_saasbo a))
      = inr None
      \/ Arg.no_bayesian_optimization a = true ->
      exists only,
        steps gs = [only]
        /\ model only = SOBOL
        /\ num_trials only = -1
        /\ enforce_num_trials only = true
        /\ max_parallelism only = None).
Proof.
  intros Hgs. apply returned_strategy in Hgs.
  fold (suggestion a).
  destruct (chosen_model a) as [m|] eqn:Hm.
  - destruct Hgs as (v & _ & ->). apply chosen_model_Some in Hm as [Hno Hs].
    split; [split|split].
    + intros _. eauto.
    + reflexivity.
    + intros m' Hs' _. rewrite Hs in Hs'. inversion Hs'. subst m'.
      exists (exploration_step a v), (optimization_step a m). auto.
    + intros [H | H]; [rewrite Hs in H; discriminate | congruence].
  - subst gs. pose proof Hm as Hnone. apply chosen_model_None in Hnone.
    split; [split|split].
    + discriminate.
    + intros [[m Hs] Hno].
      assert (chosen_model a = Some m) by (apply chosen_model_Some; auto).
      congruence.
    + intros m Hs Hno.
      assert (chosen_model a = Some m) by (apply chosen_model_Some; auto).
      congruence.
    + intros _. exists (sampling_step a). auto.
Qed.

Lemma strategy_shape_witness :
  exists gs,
    outcome (choose_generation_strategy seven_initialization_trials) = inr gs
    /\ exists first second,
         steps gs = [first; second]
         /\ model first = SOBOL
         /\ num_trials first = 7
         /\ model second = GPEI
         /\ num_trials second = -1.
Proof.
  exists {| steps := [exploration_step seven_initialization_trials 4;
                       optimization_step seven_initialization_trials GPEI];
            experiment := None |}.
  split; [reflexivity|].
  apply (proj1 (proj2 (strategy_shape seven_initialization_trials _ eq_refl))
           GPEI); reflexivity.
Defined.

(** C10. When [_suggest_gp_model] returns [None] or
    [no_bayesian_optimization] is true, [choose_generation_strategy] returns
    the one-step strategy, whatever the winsorization and parallelism
    settings: neither check is reached. *)
Theorem sampling_branch_never_raises a :
  outcome (_suggest_gp_model (Arg.search_space a) (Arg.num_trials a)
             (Arg.optimization_config a) (Arg.use_saasbo a))
  = inr None
  \/ Arg.no_bayesian_optimization a = true ->
  outcome (choose_generation_strategy a) =
  inr {| steps := [sampling_step a]; experiment := Arg.experiment a |}.
Proof.
  intros H. apply one_step_strategy_returned. now apply chosen_model_None.
Qed.

Lemma sampling_branch_never_raises_witness :
  Arg.no_bayesian_optimization limits_without_winsorize_no_bo = true
  /\ outcome (choose_generation_strategy limits_without_winsorize_no_bo) =
     inr {| steps := [sampling_step limits_without_winsorize_no_bo];
            experiment := None |}.
Proof.
  split; [reflexivity|].
  apply (sampling_branch_never_raises limits_without_winsorize_no_bo).
  right. reflexivity.
Defined.

(** * Further properties *)

(** ** The order and the kind of the parameters *)

Lemma statistics_permutation ps ps' :
  Permutation ps ps' ->
  len (filter is_range ps) = len (filter is_range ps')
  /\ sum (map choices_of ps) = sum (map choices_of ps')
  /\ product (map combinations_of ps) = product (map combinations_of ps')
  /\ product (map points_of ps) = product (map points_of ps')
  /\ forallb is_int_range_or_other ps = forallb is_int_range_or_other ps'.
Proof.
  unfold len, sum, product.
  induction 1 as [|p l l' _ IH|p q l|l l' l'' _ IH1 _ IH2].
  - repeat split.
  - destruct IH as (H1 & H2 & H3 & H4 & H5). cbn [map fold_right forallb filter].
    rewrite H2, H3, H4, H5. repeat split.
    destruct (is_range p); cbn [List.length]; lia.
  - cbn [map fold_right forallb filter]. repeat split; try ring.
    all: try (destruct (is_range p), (is_range q); reflexivity).
    all: now destruct (is_int_range_or_other p), (is_int_range_or_other q).
  - destruct IH1 as (H1 & H2 & H3 & H4 & H5).
    destruct IH2 as (K1 & K2 & K3 & K4 & K5).
    repeat split; congruence.
Qed.

Lemma count_parameters_permutation ss ss' :
  Permutation (parameters ss) (parameters ss') ->
  count_parameters ss = count_parameters ss'.
Proof.
  intros H. rewrite !count_parameters_spec.
  unfold range_parameters, choice_values, choice_combinations,
    enumerable_points, all_ranges_int.
  destruct (statistics_permutation _ _ (Permutation_map snd H))
    as (H1 & H2 & H3 & H4 & H5).
  now rewrite H1, H2, H3, H4, H5.
Qed.

(** X1. The order of the entries of [search_space.parameters] does not
    matter to [_suggest_gp_model]: the model returned and the records logged
    are the same on every reordering. *)
Theorem suggest_gp_model_order_irrelevant ss ss' num_trials oc saasbo :
  Permutation (parameters ss) (parameters ss') ->
  _suggest_gp_model ss num_trials oc saasbo =
  _suggest_gp_model ss' num_trials oc saasbo.
Proof.
  intros H. unfold _suggest_gp_model.
  now rewrite (count_parameters_permutation ss ss' H).
Qed.

Lemma two_choices_reordering :
  Permutation (parameters two_choices) (parameters two_choices_reordered).
Proof.
  cbn [parameters two_choices two_choices_reordered].
  eapply perm_trans; [apply perm_swap|].
  eapply perm_trans; [apply perm_skip, perm_swap|].
  apply perm_swap.
Qed.

Lemma suggest_gp_model_order_irrelevant_witness :
  Permutation (parameters two_choices) (parameters two_choices_reordered)
  /\ _suggest_gp_model two_choices None None false =
     _suggest_gp_model two_choices_reordered None None false.
Proof.
  split; [apply two_choices_reordering|].
  apply (suggest_gp_model_order_irrelevant two_choices two_choices_reordered).
  apply two_choices_reordering.
Defined.

(** X2. The whole of [choose_generation_strategy], events and outcome, is
    the same on every reordering of the search space. *)
Theorem choose_generation_strategy_order_irrelevant ss ss' a :
  Permutation (parameters ss) (parameters ss') ->
  choose_generation_strategy (with_search_space ss a) =
  choose_generation_strategy (with_search_space ss' a).
Proof.
  intros H.
  unfold choose_generation_strategy, initialization_trials, _suggest_gp_model,
    with_search_space, len.
  cbn [Arg.search_space Arg.use_batch_trials Arg.enforce_sequential_optimization
       Arg.random_seed Arg.winsorize_botorch_model Arg.winsorization_limits
       Arg.no_bayesian_optimization Arg.num_trials Arg.num_initialization_trials
       Arg.max_parallelism_cap Arg.max_parallelism_override
       Arg.optimization_config Arg.should_deduplicate Arg.use_saasbo
       Arg.experiment].
  now rewrite (count_parameters_permutation ss ss' H), (Permutation_length H).
Qed.

Lemma choose_generation_strategy_order_irrelevant_witness :
  Permutation (parameters two_choices) (parameters two_choices_reordered)
  /\ choose_generation_strategy
       (with_search_space two_choices (Arg.defaults unit_interval)) =
     choose_generation_strategy
       (with_search_space two_choices_reordered (Arg.defaults unit_interval)).
Proof.
  split; [apply two_choices_reordering|].
  apply (choose_generation_strategy_order_irrelevant
           two_choices two_choices_reordered).
  apply two_choices_reordering.
Defined.

(** X3. A parameter that is neither a choice nor a range takes no part in the
    suggestion: [_suggest_gp_model] is the same with and without it. *)
Theorem other_parameters_ignored ps1 name value ps2 num_trials oc saasbo :
  _suggest_gp_model {| parameters := ps1 ++ (name, FixedParameter value) :: ps2 |}
    num_trials oc saasbo =
  _suggest_gp_model {| parameters := ps1 ++ ps2 |} num_trials oc saasbo.
Proof.
  unfold _suggest_gp_model, count_parameters. cbn [parameters].
  now rewrite !map_app, !fold_left_app.
Qed.

(** ** The models and the warnings of [_suggest_gp_model] *)

(** X4. [_suggest_gp_model] never suggests [SOBOL]; it suggests a fully
    Bayesian model only under [use_saasbo], a multi-objective model only for
    a multi-objective problem and [BO_MIXED] only for a single-objective
    one. *)
Theorem suggested_model_fits_request ss num_trials oc saasbo m :
  outcome (_suggest_gp_model ss num_trials oc saasbo) = inr (Some m) ->
  m <> SOBOL
  /\ (m = FULLYBAYESIAN \/ m = FULLYBAYESIANMOO -> saasbo = true)
  /\ (m = GPEI \/ m = MOO -> saasbo = false)
  /\ (m = MOO \/ m = FULLYBAYESIANMOO -> moo_problem oc = true)
  /\ (m = GPEI \/ m = FULLYBAYESIAN \/ m = BO_MIXED -> moo_problem oc = false).
Proof.
  rewrite suggest_gp_model_outcome.
  destruct (enumerable ss num_trials); [discriminate|].
  destruct (range_parameters ss >? choice_values ss).
  - destruct (moo_problem oc), saasbo; cbn; intros H; inversion H;
      repeat split; try discriminate; auto;
      intros [E | E]; try discriminate E;
      destruct E as [E | E]; discriminate E.
  - destruct (negb (moo_problem oc)
              && (choice_combinations ss <=? MAX_DISCRETE_COMBINATIONS)) eqn:Hb;
      [|discriminate].
    apply andb_true_iff in Hb as [Hmoo _]. apply negb_true_iff in Hmoo.
    intros H; inversion H. repeat split; try discriminate; auto;
      intros [E | E]; discriminate E.
Qed.

Lemma suggested_model_fits_request_witness :
  outcome (_suggest_gp_model two_choices None None true) = inr (Some BO_MIXED)
  /\ BO_MIXED <> SOBOL.
Proof.
  split; [reflexivity|].
  apply (suggested_model_fits_request two_choices None None true BO_MIXED).
  reflexivity.
Defined.

(** X5. [_suggest_gp_model] warns exactly when [use_saasbo] is requested and
    the outcome cannot honour it: once, naming Sobol when no model is
    suggested and [BO_MIXED] when that is the model.  It never warns
    otherwise. *)
Theorem saasbo_warning ss num_trials oc saasbo :
  warnings (trace (_suggest_gp_model ss num_trials oc saasbo)) =
  match saasbo, outcome (_suggest_gp_model ss num_trials oc saasbo) with
  | true, inr None => [LogWarn (SAASBO_INCOMPATIBLE_MESSAGE "Sobol")]
  | true, inr (Some BO_MIXED) =>
      [LogWarn (SAASBO_INCOMPATIBLE_MESSAGE "`BO_MIXED`")]
  | _, _ => []
  end.
Proof.
  unfold _suggest_gp_model, when.
  destruct (moo_problem oc), saasbo;
    repeat match goal with
           | |- context [if ?b then _ else _] => destruct b
           end; reflexivity.
Qed.

(** X6. On a search space without choice and range parameters, the empty one
    included, the counts are the neutral ones: with a known number of trials
    of at least one, no model is suggested; otherwise [BO_MIXED] is suggested
    for a single-objective problem and no model for a multi-objective one. *)
Theorem no_searchable_parameter ss num_trials oc saasbo :
  forallb is_other (map snd (parameters ss)) = true ->
  outcome (_suggest_gp_model ss num_trials oc saasbo) =
  inr match num_trials with
      | Some n => if 1 <=? n then None
                  else if moo_problem oc then None else Some BO_MIXED
      | None => if moo_problem oc then None else Some BO_MIXED
      end.
Proof.
  intros H. rewrite suggest_gp_model_outcome.
  assert (Hs : all_ranges_int ss = true /\ enumerable_points ss = 1
               /\ range_parameters ss = 0 /\ choice_values ss = 0
               /\ choice_combinations ss = 1).
  { unfold all_ranges_int, enumerable_points, range_parameters, choice_values,
      choice_combinations, len, product, sum.
    induction (map snd (parameters ss)) as [|p ps IH]; [repeat split|].
    cbn [forallb] in H. apply andb_true_iff in H as [Hp Hps].
    destruct p; try discriminate Hp.
    destruct (IH Hps) as (H1 & H2 & H3 & H4 & H5).
    cbn [forallb map fold_right filter is_range is_int_range_or_other
         points_of choices_of combinations_of].
    rewrite H1, H2, H4, H5. repeat split; auto. }
  destruct Hs as (H1 & H2 & H3 & H4 & H5).
  unfold enumerable. rewrite H1, H2, H3, H4, H5. cbn [andb].
  destruct num_trials as [n|]; [destruct (1 <=? n); [reflexivity|]|];
    now destruct (moo_problem oc).
Qed.

Lemma no_searchable_parameter_witness :
  forallb is_other (map snd (parameters only_fixed)) = true
  /\ outcome (_suggest_gp_model only_fixed None None false) = inr (Some BO_MIXED).
Proof.
  split; [reflexivity|].
  apply (no_searchable_parameter only_fixed None None false). reflexivity.
Defined.

Lemma product_zero l : In 0 l -> product l = 0.
Proof.
  unfold product. induction l as [|x l IH]; [contradiction|].
  intros [-> | H]; cbn [fold_right]; [lia|]. rewrite (IH H). lia.
Qed.

(** X7. An integer range whose bounds coincide counts for zero points: when
    all ranges are integer and the number of trials is known and not
    negative, no model is suggested, whatever the other parameters. *)
Theorem flat_integer_range_suggests_None ss name bound n oc saasbo :
  In (name, RangeParameter INT bound bound) (parameters ss) ->
  all_ranges_int ss = true ->
  0 <= n ->
  outcome (_suggest_gp_model ss (Some n) oc saasbo) = inr None.
Proof.
  intros Hin Hall Hn. rewrite suggest_gp_model_outcome.
  unfold enumerable. rewrite Hall.
  assert (Hp : enumerable_points ss = 0).
  { unfold enumerable_points. apply product_zero.
    apply in_map_iff. exists (RangeParameter INT bound bound).
    split; [cbn; lia|].
    apply in_map_iff. exists (name, RangeParameter INT bound bound). auto. }
  rewrite Hp. now apply Z.leb_le in Hn as ->.
Qed.

Lemma flat_integer_range_suggests_None_witness :
  In ("a"%string, RangeParameter INT 3 3) (parameters flat_range)
  /\ all_ranges_int flat_range = true
  /\ 0 <= 0
  /\ outcome (_suggest_gp_model flat_range (Some 0) None false) = inr None.
Proof.
  split; [left; reflexivity|]. split; [reflexivity|]. split; [lia|].
  apply (flat_integer_range_suggests_None flat_range "a" 3 0 None false);
    [left; reflexivity | reflexivity | lia].
Defined.

(** ** The step builders *)

Lemma or_ceil_half_outcome min_trials_observed n :
  outcome (or_ceil_half min_trials_observed n) =
  if Py.truthy min_trials_observed
  then inr match min_trials_observed with Some v => v | None => 0 end
  else Py.ceil_half n.
Proof.
  destruct min_trials_observed as [v|]; [|now rewrite or_ceil_half_None].
  unfold or_ceil_half. destruct (Py.truthy (Some v)); [reflexivity|].
  fold (or_ceil_half None n). now rewrite or_ceil_half_None.
Qed.

(** X8. [_make_botorch_step] raises the winsorization error exactly when the
    request is inconsistent, before anything else it does; otherwise it can
    only fail by overflow of [ceil(num_trials / 2)], and only when
    [min_trials_observed] is [None] or [0].  Its [assert] never fails. *)
Theorem botorch_step_errors n min_obs enforce par m winsorize limits dedup :
  let inconsistent :=
    (winsorize && is_None limits) || (negb (is_None limits) && negb winsorize) in
  let run := _make_botorch_step n min_obs enforce par m winsorize limits dedup in
  (inconsistent = true -> run = ([], inl winsorization_error))
  /\ (forall e, outcome run = inl e ->
      (inconsistent = true /\ e = winsorization_error)
      \/ (inconsistent = false /\ Py.truthy min_obs = false
          /\ Py.ceil_half n = inl e))
  /\ outcome run <> inl Py.AssertionError.
Proof.
  cbn zeta. unfold _make_botorch_step.
  assert (Hcase : forall e,
    outcome (_make_botorch_step n min_obs enforce par m winsorize limits dedup)
      = inl e ->
    ((winsorize && is_None limits) || (negb (is_None limits) && negb winsorize)
       = true /\ e = winsorization_error)
    \/ ((winsorize && is_None limits) || (negb (is_None limits) && negb winsorize)
          = false
        /\ Py.truthy min_obs = false /\ Py.ceil_half n = inl e)).
  { intros e. unfold _make_botorch_step.
    pose proof (or_ceil_half_outcome min_obs n) as Ho.
    destruct (or_ceil_half min_obs n) as [t r]. cbn [outcome snd] in Ho.
    subst r.
    destruct winsorize, limits as [l|], (Py.truthy min_obs);
      try destruct (Py.ceil_half n) as [e'|v];
      cbn; intros H; inversion H; auto. }
  fold (_make_botorch_step n min_obs enforce par m winsorize limits dedup).
  repeat split.
  - unfold _make_botorch_step. now intros ->.
  - exact Hcase.
  - intros H. destruct (Hcase _ H) as [[_ E] | (_ & _ & E)].
    + discriminate E.
    + apply ceil_half_error in E. discriminate E.
Qed.

(** X9. [_make_sobol_step] takes a [min_trials_observed] other than [0] as
    it is and cannot fail then, however large [num_trials]; a
    [min_trials_observed] of [0] is treated as if none were given. *)
Theorem sobol_step_min_trials_observed n v enforce par seed dedup :
  v <> 0 ->
  _make_sobol_step n (Some v) enforce par seed dedup =
    (let step :=
       {| model := SOBOL; num_trials := n; min_trials_observed := v;
          enforce_num_trials := enforce; max_parallelism := par;
          model_kwargs := Some (SobolKwargs true seed);
          should_deduplicate := dedup |} in
     ([NewStep step], inr step))
  /\ _make_sobol_step n (Some 0) enforce par seed dedup =
     _make_sobol_step n None enforce par seed dedup.
Proof.
  intros Hv. split; [|reflexivity].
  unfold _make_sobol_step, or_ceil_half, Py.truthy.
  apply Z.eqb_neq in Hv. now rewrite Hv.
Qed.

Lemma sobol_step_min_trials_observed_witness :
  2 <> 0
  /\ outcome (_make_sobol_step (2 ^ 1025) (Some 2) true None None false) =
     inr {| model := SOBOL; num_trials := 2 ^ 1025; min_trials_observed := 2;
            enforce_num_trials := true; max_parallelism := None;
            model_kwargs := Some (SobolKwargs true None);
            should_deduplicate := false |}.
Proof.
  split; [discriminate|].
  rewrite (proj1 (sobol_step_min_trials_observed (2 ^ 1025) 2 true None None
                    false ltac:(discriminate))).
  reflexivity.
Defined.

(** ** The strategy returned *)

(** X10. In a returned two-step strategy with a number of initialization
    trials from [0] to [2 ^ 53] (excluded), the exploration step requires at
    least half of its trials to be observed, and never more than it has. *)
Theorem exploration_observations_within_budget a m gs :
  chosen_model a = Some m ->
  outcome (choose_generation_strategy a) = inr gs ->
  0 <= initialization_trials a < 2 ^ 53 ->
  exists exploration optimization,
    steps gs = [exploration; optimization]
    /\ 0 <= min_trials_observed exploration <= num_trials exploration
    /\ num_trials exploration <= 2 * min_trials_observed exploration.
Proof.
  intros Hm Hgs Hn. apply returned_strategy in Hgs. rewrite Hm in Hgs.
  destruct Hgs as (v & Hv & ->).
  rewrite ceil_half_exact in Hv by lia. injection Hv as <-.
  eexists _, _. split; [reflexivity|].
  cbn [exploration_step min_trials_observed num_trials].
  Z.to_euclidean_division_equations; lia.
Qed.

Lemma exploration_observations_within_budget_witness :
  chosen_model seven_initialization_trials = Some GPEI
  /\ 0 <= initialization_trials seven_initialization_trials < 2 ^ 53
  /\ exists exploration optimization,
       steps {| steps := [exploration_step seven_initialization_trials 4;
                          optimization_step seven_initialization_trials GPEI];
                experiment := None |} = [exploration; optimization]
       /\ 0 <= min_trials_observed exploration <= num_trials exploration
       /\ num_trials exploration <= 2 * min_trials_observed exploration.
Proof.
  split; [reflexivity|]. split; [vm_compute; split; [discriminate|reflexivity]|].
  apply (exploration_observations_within_budget seven_initialization_trials GPEI);
    [reflexivity | reflexivity
     | vm_compute; split; [discriminate|reflexivity]].
Defined.

(** X11. When [num_initialization_trials] is not given, the exploration step
    of a returned two-step strategy has one trial and requires one
    observation for batch trials; otherwise it has as many trials as there are
    parameters, and at least five, and requires at least three observations. *)
Theorem estimated_initialization_trials a m gs :
  Arg.num_initialization_trials a = None ->
  chosen_model a = Some m ->
  outcome (choose_generation_strategy a) = inr gs ->
  len (parameters (Arg.search_space a)) < 2 ^ 53 ->
  exists exploration optimization,
    steps gs = [exploration; optimization]
    /\ if Arg.use_batch_trials a
       then num_trials exploration = 1 /\ min_trials_observed exploration = 1
       else num_trials exploration =
              Z.max 5 (len (parameters (Arg.search_space a)))
            /\ 3 <= min_trials_observed exploration.
Proof.
  intros Hnone Hm Hgs Hlen. apply returned_strategy in Hgs. rewrite Hm in Hgs.
  destruct Hgs as (v & Hv & ->).
  exists (exploration_step a v), (optimization_step a m).
  split; [reflexivity|].
  cbn [exploration_step min_trials_observed num_trials].
  unfold initialization_trials in *. rewrite Hnone in *.
  assert (H0 : 0 <= len (parameters (Arg.search_space a)))
    by (unfold len; lia).
  destruct (Arg.use_batch_trials a).
  - split; [reflexivity|]. vm_compute in Hv. now injection Hv as <-.
  - split; [reflexivity|].
    rewrite ceil_half_exact in Hv by lia. injection Hv as <-.
    Z.to_euclidean_division_equations; lia.
Qed.

Lemma estimated_initialization_trials_witness :
  Arg.num_initialization_trials (Arg.defaults unit_interval) = None
  /\ chosen_model (Arg.defaults unit_interval) = Some GPEI
  /\ len (parameters (Arg.search_space (Arg.defaults unit_interval))) < 2 ^ 53
  /\ exists exploration optimization,
       steps {| steps := [exploration_step (Arg.defaults unit_interval) 3;
                          optimization_step (Arg.defaults unit_interval) GPEI];
                experiment := None |} = [exploration; optimization]
       /\ (num_trials exploration = 5 /\ 3 <= min_trials_observed exploration).
Proof.
  split; [reflexivity|]. split; [reflexivity|]. split; [reflexivity|].
  apply (estimated_initialization_trials (Arg.defaults unit_interval) GPEI);
    reflexivity.
Defined.

(** X12. A returned strategy carries the settings it was asked for: the
    experiment given, [should_deduplicate] in every step, the random seed and
    [deduplicate=True] in the Sobol step, which comes first;
    [enforce_num_trials] follows [enforce_sequential_optimization] in the
    exploration step only. *)
Theorem settings_carried a gs :
  outcome (choose_generation_strategy a) = inr gs ->
  experiment gs = Arg.experiment a
  /\ Forall (fun step => should_deduplicate step = Arg.should_deduplicate a)
       (steps gs)
  /\ exists first rest,
       steps gs = first :: rest
       /\ model first = SOBOL
       /\ model_kwargs first = Some (SobolKwargs true (Arg.random_seed a))
       /\ enforce_num_trials first =
            match rest with
            | [] => true
            | _ => Arg.enforce_sequential_optimization a
            end
       /\ Forall (fun step => enforce_num_trials step = true) rest.
Proof.
  intros Hgs. apply returned_strategy in Hgs.
  destruct (chosen_model a) as [m|].
  - destruct Hgs as (v & _ & ->). repeat split.
    + repeat constructor.
    + exists (exploration_step a v), [optimization_step a m].
      repeat split. repeat constructor.
  - subst gs. repeat split.
    + repeat constructor.
    + exists (sampling_step a), []. repeat split. constructor.
Qed.

Lemma settings_carried_witness :
  outcome (choose_generation_strategy seven_initialization_trials) =
    inr {| steps := [exploration_step seven_initialization_trials 4;
                     optimization_step seven_initialization_trials GPEI];
           experiment := None |}
  /\ experiment {| steps := [exploration_step seven_initialization_trials 4;
                            optimization_step seven_initialization_trials GPEI];
                  experiment := None |} = None.
Proof.
  split; [reflexivity|].
  apply (settings_carried seven_initialization_trials). reflexivity.
Defined.

(** X13. In a returned two-step strategy the winsorization flag and limits
    agree, and the optimization step carries them: with limits [(lower,
    upper)] its [model_kwargs] hold the transforms [Winsorize], [Cont_X_trans],
    [Y_trans] in this order and the two limits; without limits it has no
    [model_kwargs]. *)
Theorem winsorization_carried a m gs :
  chosen_model a = Some m ->
  outcome (choose_generation_strategy a) = inr gs ->
  exists exploration optimization,
    steps gs = [exploration; optimization]
    /\ match Arg.winsorization_limits a with
       | Some (lower, upper) =>
           Arg.winsorize_botorch_model a = true
           /\ model_kwargs optimization =
              Some (WinsorizeKwargs [Winsorize; Cont_X_trans; Y_trans] lower upper)
       | None =>
           Arg.winsorize_botorch_model a = false
           /\ model_kwargs optimization = None
       end.
Proof.
  intros Hm Hgs. rewrite choose_generation_strategy_outcome in Hgs.
  unfold dispatch in Hgs. rewrite Hm in Hgs.
  destruct (conflicting_parallelism a); [discriminate|].
  destruct (Py.ceil_half (initialization_trials a)) as [e|v]; [discriminate|].
  destruct (inconsistent_winsorization a) eqn:Hw; [discriminate|].
  destruct (initialization_trials a <? 1); [discriminate|].
  cbn [outcome snd steps] in Hgs. inversion Hgs.
  exists (exploration_step a v), (optimization_step a m).
  split; [reflexivity|].
  unfold inconsistent_winsorization in Hw.
  cbn [optimization_step model_kwargs].
  destruct (Arg.winsorization_limits a) as [[lower upper]|],
           (Arg.winsorize_botorch_model a);
    try discriminate Hw; auto.
Qed.

Lemma winsorization_carried_witness :
  chosen_model winsorize_upper = Some GPEI
  /\ exists exploration optimization,
       steps {| steps := [exploration_step winsorize_upper 3;
                          optimization_step winsorize_upper GPEI];
                experiment := None |} = [exploration; optimization]
       /\ (Arg.winsorize_botorch_model winsorize_upper = true
           /\ model_kwargs optimization =
              Some (WinsorizeKwargs [Winsorize; Cont_X_trans; Y_trans]
                      None (Some (Py.tenths 9)))).
Proof.
  split; [reflexivity|].
  apply (winsorization_carried winsorize_upper GPEI); reflexivity.
Defined.

(** ** The events of a run *)

(** X14. When a strategy is returned, its steps have been built one by one
    in their order, and then one strategy from exactly these steps, with no
    experiment: the experiment is attached afterwards. *)
Theorem steps_built_in_order a gs :
  outcome (choose_generation_strategy a) = inr gs ->
  constructions (trace (choose_generation_strategy a)) =
  map NewStep (steps gs)
  ++ [NewStrategy {| steps := steps gs; experiment := None |}].
Proof.
  rewrite choose_generation_strategy_outcome, choose_generation_strategy_trace,
    constructions_app, suggestion_builds_nothing.
  cbn [app]. unfold dispatch.
  destruct (chosen_model a) as [m|].
  - destruct (conflicting_parallelism a); [discriminate|].
    destruct (Py.ceil_half (initialization_trials a)) as [e|v]; [discriminate|].
    destruct (inconsistent_winsorization a); [discriminate|].
    destruct (initialization_trials a <? 1); [discriminate|].
    cbn [outcome trace fst snd steps]. intros H. injection H as <-.
    now rewrite constructions_app, parallelism_ignored_log_builds_nothing.
  - cbn [outcome trace fst snd steps]. intros H. now injection H as <-.
Qed.

Lemma steps_built_in_order_witness :
  outcome (choose_generation_strategy seven_initialization_trials) =
    inr {| steps := [exploration_step seven_initialization_trials 4;
                     optimization_step seven_initialization_trials GPEI];
           experiment := None |}
  /\ constructions (trace (choose_generation_strategy seven_initialization_trials)) =
     [NewStep (exploration_step seven_initialization_trials 4);
      NewStep (optimization_step seven_initialization_trials GPEI);
      NewStrategy
        {| steps := [exploration_step seven_initialization_trials 4;
                     optimization_step seven_initialization_trials GPEI];
           experiment := None |}].
Proof.
  split; [reflexivity|].
  apply (steps_built_in_order seven_initialization_trials
           {| steps := [exploration_step seven_initialization_trials 4;
                        optimization_step seven_initialization_trials GPEI];
              experiment := None |}).
  reflexivity.
Defined.

(** X15. With [enforce_sequential_optimization=False] and a cap other than
    [0] (and no override), the run logs that the parallelism settings will be
    ignored, and the steps of the returned strategy are limited by the cap all
    the same. *)
Theorem cap_logged_as_ignored_but_applied a m gs cap :
  chosen_model a = Some m ->
  Arg.enforce_sequential_optimization a = false ->
  Arg.max_parallelism_override a = None ->
  Arg.max_parallelism_cap a = Some cap ->
  cap <> 0 ->
  outcome (choose_generation_strategy a) = inr gs ->
  In (LogInfo parallelism_ignored_message) (trace (choose_generation_strategy a))
  /\ map max_parallelism (steps gs) = [Some cap; Some (Z.min cap 3)].
Proof.
  intros Hm He Ho Hc Hcap Hgs. split.
  - rewrite choose_generation_strategy_outcome in Hgs.
    rewrite choose_generation_strategy_trace. apply in_or_app. right.
    unfold dispatch in *. rewrite Hm in *.
    destruct (conflicting_parallelism a); [discriminate|].
    destruct (Py.ceil_half (initialization_trials a)) as [e|v]; [discriminate|].
    destruct (inconsistent_winsorization a); [discriminate|].
    destruct (initialization_trials a <? 1); [discriminate|].
    cbn [trace fst]. apply in_or_app. left.
    unfold parallelism_ignored_log, Py.truthy. rewrite He, Ho, Hc.
    apply Z.eqb_neq in Hcap. rewrite Hcap. left. reflexivity.
  - apply returned_strategy in Hgs. rewrite Hm in Hgs.
    destruct Hgs as (v & _ & ->).
    cbn [steps map exploration_step optimization_step max_parallelism].
    unfold sobol_parallelism, bo_parallelism, parallelism.
    now rewrite Ho, Hc.
Qed.

Lemma cap_logged_as_ignored_but_applied_witness :
  chosen_model cap_without_enforcement = Some GPEI
  /\ Arg.enforce_sequential_optimization cap_without_enforcement = false
  /\ Arg.max_parallelism_cap cap_without_enforcement = Some 2
  /\ In (LogInfo parallelism_ignored_message)
        (trace (choose_generation_strategy cap_without_enforcement))
  /\ map max_parallelism
       (steps {| steps := [exploration_step cap_without_enforcement 3;
                           optimization_step cap_without_enforcement GPEI];
                 experiment := None |}) = [Some 2; Some 2].
Proof.
  split; [reflexivity|]. split; [reflexivity|]. split; [reflexivity|].
  apply (cap_logged_as_ignored_but_applied cap_without_enforcement GPEI
           {| steps := [exploration_step cap_without_enforcement 3;
                        optimization_step cap_without_enforcement GPEI];
              experiment := None |} 2);
    try reflexivity; discriminate.
Defined.

(** X16. [choose_generation_strategy] raises only with a model chosen, and
    then one of four errors, tried in this order: the parallelism error when
    both settings are given and true; [OverflowError] when
    [ceil(num_initialization_trials / 2)] overflows; the winsorization error
    when the request is inconsistent; [UserInputError], from the constructor
    of [GenerationStrategy], when there is no initialization trial or a
    negative number of them.  Each of the four is raised whenever its
    condition holds and the earlier ones do not.  It never raises
    [AssertionError]. *)
Theorem errors_raised a e :
  (outcome (choose_generation_strategy a) = inl e <->
   (exists m, chosen_model a = Some m)
   /\ ((conflicting_parallelism a = true /\ e = parallelism_error)
       \/ (conflicting_parallelism a = false
           /\ Py.ceil_half (initialization_trials a) = inl e
           /\ e = Py.OverflowError "integer division result too large for a float")
       \/ (conflicting_parallelism a = false
           /\ (exists v, Py.ceil_half (initialization_trials a) = inr v)
           /\ inconsistent_winsorization a = true
           /\ e = winsorization_error)
       \/ (conflicting_parallelism a = false
           /\ (exists v, Py.ceil_half (initialization_trials a) = inr v)
           /\ inconsistent_winsorization a = false
           /\ initialization_trials a < 1
           /\ e = Py.UserInputError)))
  /\ (outcome (choose_generation_strategy a) = inl e -> e <> Py.AssertionError).
Proof.
  rewrite choose_generation_strategy_outcome. unfold dispatch.
  destruct (chosen_model a) as [m|];
    [|split; [split; [discriminate|intros [[m' Hm'] _]; discriminate Hm']
             |discriminate]].
  destruct (conflicting_parallelism a).
  { cbn [outcome snd]. split; [split|].
    - intros H. injection H as <-. split; [eauto|]. left. auto.
    - intros [_ [[_ ->] | [[H _] | [[H _] | [H _]]]]];
        [reflexivity | discriminate H ..].
    - intros H. injection H as <-. discriminate. }
  destruct (Py.ceil_half (initialization_trials a)) as [e'|v] eqn:Hv.
  { cbn [outcome snd]. pose proof (ceil_half_error _ _ Hv) as He.
    split; [split|].
    - intros H. injection H as ->. split; [eauto|]. right. left. auto.
    - intros [_ [[H _] | [[_ [H _]] | [[_ [[v H] _]] | [_ [[v H] _]]]]]];
        [discriminate H | congruence | discriminate H ..].
    - intros H. injection H as ->. rewrite He. discriminate. }
  destruct (inconsistent_winsorization a).
  { cbn [outcome snd]. split; [split|].
    - intros H. injection H as <-. split; [eauto|]. right. right. left. eauto.
    - intros [_ [[H _] | [[_ [H _]] | [[_ [_ [_ ->]]] | [_ [_ [H _]]]]]]];
        [discriminate H | discriminate H | reflexivity | discriminate H].
    - intros H. injection H as <-. discriminate. }
  destruct (initialization_trials a <? 1) eqn:Hn.
  - apply Z.ltb_lt in Hn. cbn [outcome snd]. split; [split|].
    + intros H. injection H as <-. split; [eauto|]. right. right. right.
      split; [reflexivity|]. split; [eauto|]. split; [reflexivity|].
      split; [assumption|reflexivity].
    + intros [_ [[H _] | [[_ [H _]] | [[_ [_ [H _]]] | [_ [_ [_ [_ ->]]]]]]]];
        [discriminate H | discriminate H | discriminate H | reflexivity].
    + intros H. injection H as <-. discriminate.
  - apply Z.ltb_ge in Hn. cbn [outcome snd]. split; [split|].
    + discriminate.
    + intros [_ [[H _] | [[_ [H _]] | [[_ [_ [H _]]] | [_ [_ [_ [H _]]]]]]]];
        [discriminate H | discriminate H | discriminate H | lia].
    + discriminate.
Qed.

Lemma errors_raised_witness :
  (outcome (choose_generation_strategy winsorize_without_limits_huge) =
     inl (Py.OverflowError "integer division result too large for a float")
   /\ Py.OverflowError "integer division result too large for a float"
      <> Py.AssertionError)
  /\ (conflicting_parallelism minus_one_initialization_trials = false
      /\ inconsistent_winsorization minus_one_initialization_trials = false
      /\ initialization_trials minus_one_initialization_trials < 1
      /\ outcome (choose_generation_strategy minus_one_initialization_trials) =
         inl Py.UserInputError).
Proof.
  split.
  - assert (H : outcome (choose_generation_strategy winsorize_without_limits_huge)
                = inl (Py.OverflowError
                         "integer division result too large for a float"))
      by (vm_compute; reflexivity).
    split; [exact H|].
    exact (proj2 (errors_raised winsorize_without_limits_huge _) H).
  - split; [reflexivity|]. split; [reflexivity|]. split; [reflexivity|].
    apply (proj1 (errors_raised minus_one_initialization_trials
                    Py.UserInputError)).
    split; [exists GPEI; reflexivity|].
    right. right. right.
    split; [reflexivity|]. split; [exists 0; reflexivity|].
    split; [reflexivity|]. split; [reflexivity|reflexivity].
Defined.

(** X17. Disabling Bayesian optimization does not skip the heuristic:
    whenever no model is chosen, a run is the whole run of
    [_suggest_gp_model], with its log records and warnings, followed by the
    Sobol step, the strategy and the record that Sobol is used. *)
Theorem heuristic_runs_when_disabled a :
  outcome (_suggest_gp_model (Arg.search_space a) (Arg.num_trials a)
             (Arg.optimization_config a) (Arg.use_saasbo a))
  = inr None
  \/ Arg.no_bayesian_optimization a = true ->
  trace (choose_generation_strategy a) =
  trace (_suggest_gp_model (Arg.search_space a) (Arg.num_trials a)
           (Arg.optimization_config a) (Arg.use_saasbo a))
  ++ [NewStep (sampling_step a);
      NewStrategy {| steps := [sampling_step a]; experiment := None |};
      LogInfo (Text "Using Sobol generation strategy.")].
Proof.
  intros H. apply chosen_model_None in H.
  rewrite choose_generation_strategy_trace. unfold dispatch. now rewrite H.
Qed.

Lemma heuristic_runs_when_disabled_witness :
  Arg.no_bayesian_optimization limits_without_winsorize_no_bo = true
  /\ trace (choose_generation_strategy limits_without_winsorize_no_bo) =
     [LogInfo (Text
        ("Using Bayesian optimization since there are more continuous "
         ++ "parameters than there are categories for the unordered categorical "
         ++ "parameters."));
      NewStep (sampling_step limits_without_winsorize_no_bo);
      NewStrategy {| steps := [sampling_step limits_without_winsorize_no_bo];
                     experiment := None |};
      LogInfo (Text "Using Sobol generation strategy.")].
Proof.
  split; [reflexivity|].
  rewrite (heuristic_runs_when_disabled limits_without_winsorize_no_bo
             (or_intror eq_refl)).
  reflexivity.
Defined.
